(** * cpfin: the transaction pipeline of [finance_app_streamlit.py]

    A shallow embedding of the six stages of the personal finance panel
    (normalisation, deduplication, keyword classification, internal
    transfers, competence cycle, summaries) and the properties its
    specification states about them.

    Conventions of the embedding.
    - A Python [str] is a Rocq [string] holding its UTF-8 bytes; substring
      tests on UTF-8 bytes and on code points agree.
    - A pandas table is a [frame]: the list of its column names and the
      list of its rows, in index order.  Cells of text columns are a
      string or NaN; the [date] and [amount] columns, which [parse_file]
      coerces, are typed ([option Date], [option Qc], [None] being
      NaT/NaN).
    - Amounts are exact rationals: the rounding of binary floating point is
      not part of the model.
    - A pandas [KeyError] is the [KeyError] constructor of [result];
      [st.error] and [st.warning] append to a list of messages. *)

From stdpp Require Import gmap strings list sorting.
From Stdlib Require Import ZArith QArith Qcanon Ascii String Lia Ring.

Local Open Scope string_scope.
Local Open Scope Z_scope.

(** ** Python string operations *)

Module PyStr.

(** [str.lower]: exact on U+0000..U+00FF.  In UTF-8 the capitals
    U+00C0..U+00DE (all but the sign U+00D7) are the byte 0xC3 followed by
    0x80..0x9E, and their lower case is 0x20 further.  Capitals beyond
    Latin-1 are left as they are. *)
Fixpoint lower_from (after_c3 : bool) (s : string) : string :=
  match s with
  | EmptyString => EmptyString
  | String c s' =>
      let n := N_of_ascii c in
      if after_c3 then
        String (if (128 <=? n)%N && (n <=? 158)%N && negb (n =? 151)%N
                then ascii_of_N (n + 32) else c)
               (lower_from false s')
      else
        String (if (65 <=? n)%N && (n <=? 90)%N
                then ascii_of_N (n + 32) else c)
               (lower_from (n =? 195)%N s')
  end.

Definition lower (s : string) : string := lower_from false s.

(** The characters [str.strip] removes, among the first 128: TAB, LF, VT,
    FF, CR, the separators 0x1C..0x1F and the blank. *)
Definition is_space (c : ascii) : bool :=
  let n := N_of_ascii c in
  ((9 <=? n)%N && (n <=? 13)%N) || ((28 <=? n)%N && (n <=? 32)%N).

Fixpoint lstrip (s : string) : string :=
  match s with
  | EmptyString => EmptyString
  | String c s' => if is_space c then lstrip s' else s
  end.

Fixpoint rstrip (s : string) : string :=
  match s with
  | EmptyString => EmptyString
  | String c s' =>
      match rstrip s' with
      | EmptyString => if is_space c then EmptyString else String c EmptyString
      | r => String c r
      end
  end.

Definition strip (s : string) : string := rstrip (lstrip s).

(** [sub in s] *)
Fixpoint contains (sub s : string) : bool :=
  String.prefix sub s ||
  match s with
  | EmptyString => false
  | String _ s' => contains sub s'
  end.

(** [s.endswith(suffix)] *)
Fixpoint endswith (s suffix : string) : bool :=
  String.eqb s suffix ||
  match s with
  | EmptyString => false
  | String _ s' => endswith s' suffix
  end.

(** [s.replace(old, new)] for a pattern [old] of one character, as at its
    two call sites. *)
Fixpoint replace (old : ascii) (new : string) (s : string) : string :=
  match s with
  | EmptyString => EmptyString
  | String c s' =>
      if Ascii.eqb c old then new +:+ replace old new s'
      else String c (replace old new s')
  end.

(** [Series.str.contains(pat, case=False)] for a pattern without regular
    expression operators: a search that ignores case, taken here as the
    search of the lower-cased pattern in the lower-cased text. *)
Definition contains_nocase (pat s : string) : bool :=
  contains (lower pat) (lower s).

End PyStr.

(** ** Data model *)

(** A cell of a text column, as [read_csv] and [read_excel] deliver it: a
    string, or NaN where the source file had nothing. *)
Inductive cell : Type :=
| NaN
| Str (s : string).

Global Instance cell_eq_dec : EqDecision cell.
Proof. solve_decision. Defined.

(** The calendar fields of a [Timestamp] or a [datetime.date]. *)
Record Date : Type := mkDate { year : Z; month : Z; day : Z }.

Global Instance Date_eq_dec : EqDecision Date.
Proof. solve_decision. Defined.

(** A row after [parse_file]: the coerced [date] and [amount] columns and
    every other column ([title], [description], [operation_id],
    [activity_id], ...) by name. *)
Record txn : Type := Txn {
  date : option Date;
  amount : option Qc;
  fields : gmap string cell
}.

(** The six columns [categorize_transactions] adds. *)
Record classification : Type := Classification {
  category : string;
  subcategory : string;
  is_fixed : bool;
  is_extraordinary : bool;
  is_investment : bool;
  is_valonni : bool
}.

(** A row after [categorize_transactions]. *)
Record classified : Type := Classified {
  base : txn;
  cls : classification
}.

(** A row after [assign_competence]. *)
Record enriched : Type := Enriched {
  source : classified;
  competence : option Date
}.

(** A row of the summary of [compute_summary]. *)
Record summary_row : Type := SummaryRow {
  s_competence : Date;
  s_category : string;
  s_is_fixed : bool;
  s_is_extraordinary : bool;
  s_is_investment : bool;
  s_is_valonni : bool;
  total_amount : Qc
}.

(** A [DataFrame]: column names and rows.  In a frame the pipeline builds,
    every row has in [fields] exactly the text columns named in
    [columns]. *)
Record frame (A : Type) : Type := Frame {
  columns : list string;
  rows : list A
}.
Arguments Frame {A} _ _.
Arguments columns {A} _.
Arguments rows {A} _.

(** [pd.DataFrame()] *)
Definition empty_frame {A : Type} : frame A := Frame [] [].

(** [df.empty]: no column or no row. *)
Definition df_empty {A : Type} (df : frame A) : bool :=
  match columns df, rows df with
  | [], _ | _, [] => true
  | _, _ => false
  end.

(** [name in df.columns] *)
Definition has_column {A : Type} (df : frame A) (name : string) : bool :=
  bool_decide (name ∈ columns df).

(** [df[name] = values]: the column is replaced where it is, or added last. *)
Definition set_column (name : string) (cols : list string) : list string :=
  if bool_decide (name ∈ cols) then cols else (cols ++ [name])%list.

(** What a stage returns: its value, or the [KeyError] pandas raises for a
    column that is not there. *)
Inductive result (A : Type) : Type :=
| Ok (a : A)
| KeyError (key : string).
Arguments Ok {A} _.
Arguments KeyError {A} _.

Global Instance result_bind : MBind result := λ A B f x,
  match x with
  | Ok a => f a
  | KeyError key => KeyError key
  end.

(** The first of [names] that is not a column, if any. *)
Definition missing_column {A : Type} (df : frame A) (names : list string)
  : option string :=
  List.find (fun name => negb (has_column df name)) names.

(** ** Classification rules *)

Module CategoryRule.
Record t : Type := mk {
  category : string;
  subcategory : option string;
  keywords : list string;
  is_fixed : bool;
  is_extraordinary : bool;
  is_investment : bool;
  is_valonni : bool
}.
End CategoryRule.
Abbreviation CategoryRule := CategoryRule.t.

(** The rules of the prototype.  The flags a rule does not give are the
    dataclass defaults, [False]. *)
Definition load_category_rules : list CategoryRule :=
  [ CategoryRule.mk "Transferência interna" None
      ["Isabela Valonni"; "Transferência interna"]
      false false false false;
    CategoryRule.mk "Alimentação" (Some "Restaurantes")
      ["99 Tecnologia"; "Outback"; "Clark Patisserie";
       "Passione Per Gelato"; "Yokubo Restaurante"]
      false false false false;
    CategoryRule.mk "Alimentação" (Some "Mercado")
      ["Armazem Urbano"; "Supermercados"; "Super Mercado"; "Vianense"]
      true false false false;
    CategoryRule.mk "Carro" (Some "Compra/Manutenção")
      ["Ludi Auto Pecas"; "Yasmin"; "Diego"]
      false true false false;
    CategoryRule.mk "Saúde" (Some "Plano de saúde")
      ["Bradesco Saude"; "Bradesco Saúde"]
      true false false false;
    CategoryRule.mk "Saúde" (Some "Farmácia")
      ["Venancio"; "Drogarias"]
      false false false false;
    CategoryRule.mk "Moradia" (Some "Aluguel/Condomínio")
      ["Paula"; "Carla"]
      true false false false;
    CategoryRule.mk "Pets" (Some "Gastos com Pets")
      ["Petshop"; "Pets"]
      true false false false;
    CategoryRule.mk "Empresa Valonni" (Some "Repasse")
      ["Leonardo Aires"; "Paula C R"; "Ande Da Silva Lopes"; "Wise"]
      false false false true;
    CategoryRule.mk "Investimentos" (Some "Yasmin")
      ["Yasmin"]
      false false true false ].

(** ** Record Normalizer: [parse_file] *)

(** The table [pd.read_csv] or [pd.read_excel] hands over: the header and,
    for every line, its cells in header order. *)
Record raw_frame : Type := RawFrame {
  raw_columns : list string;
  raw_rows : list (list cell)
}.

(** [st.error] and [st.warning] *)
Inductive message : Type :=
| Error (text : string)
| Warning (text : string).

Definition rename_map : gmap string string :=
  list_to_map
    [ ("date", "date"); ("data", "date"); ("title", "title");
      ("description", "description"); ("amount", "amount");
      ("valor", "amount"); ("currency", "currency");
      ("paymentmethod", "paymentmethod"); ("status", "status");
      ("operationid", "operation_id"); ("activity_id", "activity_id") ].

(** [df.rename(columns={k: v for k, v in rename_map.items() if k in
    df.columns})], on one column name. *)
Definition rename (c : string) : string := default c (rename_map !! c).

(** The names of the columns after the two renaming steps. *)
Definition normalized_columns (header : list string) : list string :=
  rename <$> ((fun c => PyStr.lower (PyStr.strip c)) <$> header).

(** [.astype(str)] on a cell of a text column. *)
Definition astype_str (c : cell) : string :=
  match c with
  | NaN => "nan"
  | Str s => s
  end.

(** [.str.replace(".", "", regex=False).str.replace(",", ".", regex=False)] *)
Definition clean_amount (s : string) : string :=
  PyStr.replace "," "." (PyStr.replace "." "" s).

Definition digit (c : ascii) : option Z :=
  let n := N_of_ascii c in
  if (48 <=? n)%N && (n <=? 57)%N then Some (Z.of_N n - 48) else None.

(** Reads digits with at most one point: the digits read as one integer,
    and how many of them stand after the point. *)
Fixpoint decimal_from (mantissa : Z) (fraction : option nat) (any : bool)
  (s : string) : option (Z * nat) :=
  match s with
  | EmptyString => if any then Some (mantissa, default 0%nat fraction) else None
  | String c s' =>
      match digit c with
      | Some d => decimal_from (10 * mantissa + d) (S <$> fraction) true s'
      | None =>
          if Ascii.eqb c "." then
            match fraction with
            | None => decimal_from mantissa (Some 0%nat) any s'
            | Some _ => None
            end
          else None
      end
  end.

Definition decimal (sign mantissa : Z) (fraction : nat) : Qc :=
  Q2Qc (Qmake (sign * mantissa) (Z.to_pos (10 ^ Z.of_nat fraction))).

(** The sign in front of a literal, and the rest of it. *)
Definition split_sign (s : string) : Z * string :=
  match s with
  | String c s' =>
      if Ascii.eqb c "-" then (-1, s')
      else if Ascii.eqb c "+" then (1, s')
      else (1, s)
  | EmptyString => (1, s)
  end.

(** [pd.to_numeric(..., errors="coerce")] on a string, for plain decimal
    literals: an optional sign, digits, at most one point.  Strings that
    are no number, such as "nan" or "12,5", give NaN.  The other
    spellings pandas reads as numbers (exponents, "inf", blanks around the
    number) are outside this model. *)
Definition to_numeric (s : string) : option Qc :=
  let '(sign, body) := split_sign s in
  '(mantissa, fraction) ← decimal_from 0 None false body;
  Some (decimal sign mantissa fraction).

Section Normalizer.

(** [pd.to_datetime(..., errors="coerce")] on one cell: the date formats it
    understands belong to pandas. *)
Variable to_datetime : cell → option Date.

(** One line of the table under the normalised column names. *)
Definition normalize_row (cols : list string) (cells : list cell) : txn :=
  let line : gmap string cell := list_to_map (zip cols cells) in
  {| date :=
       match line !! "date" with
       | Some c => to_datetime c
       | None =>
           (* df.get("data", pd.NaT) *)
           match line !! "data" with
           | Some c => to_datetime c
           | None => None
           end
       end;
     amount := to_numeric (clean_amount (astype_str (default NaN (line !! "amount"))));
     fields := delete "date" (delete "amount" line) |}.

(** [parse_file], from the point where the table has been read: [name] is
    [uploaded_file.name] and [table] what the reader returned. *)
Definition parse_file (name : string) (table : raw_frame)
  : list message * frame txn :=
  let name := PyStr.lower name in
  if PyStr.endswith name ".csv"
     || (PyStr.endswith name ".xls" || PyStr.endswith name ".xlsx")
  then
    let cols := normalized_columns (raw_columns table) in
    let warnings :=
      if bool_decide ("date" ∈ cols) then []
      else [Warning "Coluna de data não encontrada; tentando usar 'data'."] in
    if bool_decide ("amount" ∈ cols) then
      (warnings,
       Frame (set_column "date" cols) (normalize_row cols <$> raw_rows table))
    else
      ((warnings ++ [Error "Coluna 'amount' não encontrada."])%list, empty_frame)
  else
    ([Error "Formato de arquivo não suportado. Use CSV ou Excel."], empty_frame).

End Normalizer.

(** ** Deduplicator: [remove_duplicates] *)

(** The value of a row in a column, as [drop_duplicates] compares it.  Two
    missing values (NaN, NaT) count as equal there. *)
Inductive key_value : Type :=
| DateValue (d : option Date)
| AmountValue (a : option Qc)
| TextValue (c : option cell).

Global Instance key_value_eq_dec : EqDecision key_value.
Proof. solve_decision. Defined.

Definition column_value (r : txn) (name : string) : key_value :=
  if String.eqb name "date" then DateValue (date r)
  else if String.eqb name "amount" then AmountValue (amount r)
  else TextValue (fields r !! name).

(** The identifier a row has in a text column. *)
Definition id_in (name : string) (r : txn) : option cell := fields r !! name.

(** [duplicated(keep="first")] over the keys of the rows: a row is marked
    when its key has been seen on a row before it. *)
Fixpoint duplicated_from {K : Type} `{EqDecision K} (seen : list K)
  (keys : list K) : list bool :=
  match keys with
  | [] => []
  | k :: keys' => bool_decide (k ∈ seen) :: duplicated_from (k :: seen) keys'
  end.

Definition duplicated {K : Type} `{EqDecision K} (keys : list K) : list bool :=
  duplicated_from [] keys.

(** [df[mask]]: the rows whose mark is [True], in their order. *)
Fixpoint select {A : Type} (mask : list bool) (l : list A) : list A :=
  match mask, l with
  | b :: mask', x :: l' => if b then x :: select mask' l' else select mask' l'
  | _, _ => []
  end.

(** The rows that are not marked, when the keys [seen] came before. *)
Definition keep_first_from {A K : Type} `{EqDecision K} (key : A → K)
  (seen : list K) (l : list A) : list A :=
  select (negb <$> duplicated_from seen (key <$> l)) l.

(** [self[-self.duplicated(subset, keep="first")]] on the rows. *)
Definition keep_first {A K : Type} `{EqDecision K} (key : A → K)
  (l : list A) : list A :=
  select (negb <$> duplicated (key <$> l)) l.

(** [df.drop_duplicates(subset=..., keep="first")]: an empty frame is
    returned as it is; otherwise every column of [subset] must exist. *)
Definition drop_duplicates (subset : list string) (df : frame txn)
  : result (frame txn) :=
  if df_empty df then Ok df
  else
    match missing_column df subset with
    | Some name => KeyError name
    | None =>
        Ok (Frame (columns df)
              (keep_first (fun r => column_value r <$> subset) (rows df)))
    end.

(** [reset_index(drop=True)] renumbers the index, which a list of rows
    carries in its positions. *)
Definition remove_duplicates (df : frame txn) : result (frame txn) :=
  if has_column df "operation_id" then drop_duplicates ["operation_id"] df
  else if has_column df "activity_id" then drop_duplicates ["activity_id"] df
  else drop_duplicates ["date"; "description"; "amount"] df.

(** ** Rule-Based Classifier: [categorize_transactions] *)

(** [row.get(name)]: [None] is Python's [None], for a column that is not
    there. *)
Definition row_get (r : txn) (name : string) : option cell := fields r !! name.

(** Truth value of what [row.get] returned: [None] and the empty string are
    false, NaN (a float that is not zero) is true. *)
Definition truthy (v : option cell) : bool :=
  match v with
  | None => false
  | Some NaN => true
  | Some (Str s) => negb (String.eqb s "")
  end.

(** [v or w] *)
Definition py_or (v w : option cell) : option cell :=
  if truthy v then v else w.

(** [str(v)] *)
Definition py_str (v : option cell) : string :=
  match v with
  | None => "None"
  | Some NaN => "nan"
  | Some (Str s) => s
  end.

(** [desc = str(row.get("title") or row.get("description") or "").lower()] *)
Definition desc (r : txn) : string :=
  PyStr.lower
    (py_str (py_or (py_or (row_get r "title") (row_get r "description"))
                   (Some (Str "")))).

(** [any(keyword.lower() in desc for keyword in rule.keywords)] *)
Definition rule_matches (text : string) (rule : CategoryRule) : bool :=
  existsb (fun keyword => PyStr.contains (PyStr.lower keyword) text)
          (CategoryRule.keywords rule).

(** The loop over the rules, left at the first rule that matches. *)
Fixpoint first_match (text : string) (rules : list CategoryRule)
  : option CategoryRule :=
  match rules with
  | [] => None
  | rule :: rules' =>
      if rule_matches text rule then Some rule else first_match text rules'
  end.

(** What the loop appends for a rule that matched. *)
Definition of_rule (rule : CategoryRule) : classification :=
  {| category := CategoryRule.category rule;
     subcategory := default "" (CategoryRule.subcategory rule);
     is_fixed := CategoryRule.is_fixed rule;
     is_extraordinary := CategoryRule.is_extraordinary rule;
     is_investment := CategoryRule.is_investment rule;
     is_valonni := CategoryRule.is_valonni rule |}.

(** What it appends when no rule matched. *)
Definition unmatched : classification :=
  {| category := "Revisar"; subcategory := "";
     is_fixed := false; is_extraordinary := false;
     is_investment := false; is_valonni := false |}.

Definition classify (rules : list CategoryRule) (text : string)
  : classification :=
  match first_match text rules with
  | Some rule => of_rule rule
  | None => unmatched
  end.

Definition classification_columns : list string :=
  ["category"; "subcategory"; "is_fixed"; "is_extraordinary";
   "is_investment"; "is_valonni"].

Definition categorize_transactions (df : frame txn)
  (rules : list CategoryRule) : frame classified :=
  Frame (foldl (fun cols name => set_column name cols) (columns df)
               classification_columns)
        ((fun r => Classified r (classify rules (desc r))) <$> rows df).

(** ** Transfer Disambiguator: [detect_internal_transfers] *)

(** [df["description"].str.contains("isabela valonni", case=False,
    na=False)] on one row. *)
Definition mentions_holder (r : classified) : bool :=
  match fields (base r) !! "description" with
  | Some (Str s) => PyStr.contains_nocase "isabela valonni" s
  | _ => false
  end.

Definition set_category (c : string) (r : classified) : classified :=
  Classified (base r)
    {| category := c;
       subcategory := subcategory (cls r);
       is_fixed := is_fixed (cls r);
       is_extraordinary := is_extraordinary (cls r);
       is_investment := is_investment (cls r);
       is_valonni := is_valonni (cls r) |}.

Definition detect_internal_transfers (df : frame classified)
  : result (frame classified) :=
  if negb (has_column df "category") then KeyError "category"
  else if negb (has_column df "description") then KeyError "description"
  else
    Ok (Frame (columns df)
          ((fun r =>
              if String.eqb (category (cls r)) "Revisar" && mentions_holder r
              then set_category "Transferência interna" r
              else r) <$> rows df)).

(** ** Competence Assigner: [assign_competence] *)

Definition is_leap_year (y : Z) : bool :=
  (y mod 4 =? 0) && (negb (y mod 100 =? 0) || (y mod 400 =? 0)).

Definition days_in_month (y m : Z) : Z :=
  if m =? 2 then (if is_leap_year y then 29 else 28)
  else if (m =? 4) || (m =? 6) || (m =? 9) || (m =? 11) then 30
  else 31.

(** [date + pd.DateOffset(months=n)] for less than a year of months, as
    the addition of a [relativedelta] does it: the month moves, the year
    follows when the month leaves 1..12, and the day is cut to the length
    of the month reached. *)
Definition add_months (d : Date) (n : Z) : Date :=
  let m := month d + n in
  let '(y, m) :=
    if m >? 12 then (year d + 1, m - 12)
    else if m <? 1 then (year d - 1, m + 12)
    else (year d, m) in
  mkDate y m (Z.min (day d) (days_in_month y m)).

(** The body of the loop over [df["date"]]. *)
Definition competence_of (cycle_start_day : Z) (d : option Date)
  : option Date :=
  match d with
  | None => None
  | Some d =>
      if day d >=? cycle_start_day then
        let comp_date := add_months d 1 in
        Some (mkDate (year comp_date) (month comp_date) 1)
      else Some (mkDate (year d) (month d) 1)
  end.

Definition assign_competence (df : frame classified) (cycle_start_day : Z)
  : result (frame enriched) :=
  if has_column df "date" then
    Ok (Frame (set_column "competence" (columns df))
          ((fun r => Enriched r (competence_of cycle_start_day (date (base r))))
             <$> rows df))
  else KeyError "date".

(** ** Aggregator: [compute_summary] and [summary_by_type] *)

Definition group_columns : list string :=
  ["competence"; "category"; "is_fixed"; "is_extraordinary";
   "is_investment"; "is_valonni"].

(** The key of a group: the values of the six grouping columns. *)
Definition group_key : Type := (Date * string * bool * bool * bool * bool)%type.

(** The key of a row; [groupby] leaves out the rows whose key has a
    missing value, which only [competence] can be. *)
Definition key_of (r : enriched) : option group_key :=
  c ← competence r;
  Some (c, category (cls (source r)),
        is_fixed (cls (source r)), is_extraordinary (cls (source r)),
        is_investment (cls (source r)), is_valonni (cls (source r))).

(** Lexicographic order, first component first. *)
Definition lex (c1 c2 : comparison) : comparison :=
  match c1 with
  | Eq => c2
  | _ => c1
  end.

Definition Date_compare (a b : Date) : comparison :=
  lex (year a ?= year b) (lex (month a ?= month b) (day a ?= day b)).

Definition key_compare (a b : group_key) : comparison :=
  let '(c1, s1, f1, e1, i1, v1) := a in
  let '(c2, s2, f2, e2, i2, v2) := b in
  lex (Date_compare c1 c2)
    (lex (String.compare s1 s2)
      (lex (Bool.compare f1 f2)
        (lex (Bool.compare e1 e2)
          (lex (Bool.compare i1 i2) (Bool.compare v1 v2))))).

Definition key_leb (a b : group_key) : bool :=
  match key_compare a b with
  | Gt => false
  | _ => true
  end.

Fixpoint insert_sorted {A : Type} (leb : A → A → bool) (x : A) (l : list A)
  : list A :=
  match l with
  | [] => [x]
  | y :: l' => if leb x y then x :: l else y :: insert_sorted leb x l'
  end.

(** [groupby] sorts the group keys. *)
Definition sort {A : Type} (leb : A → A → bool) (l : list A) : list A :=
  foldr (insert_sorted leb) [] l.

(** The keys of the groups: each key once, in increasing order. *)
Definition group_keys (l : list enriched) : list group_key :=
  sort key_leb (keep_first id (omap key_of l)).

(** [sum()] of the [amount] column over some rows; NaN is skipped. *)
Definition sum_amounts (l : list enriched) : Qc :=
  foldr (fun r acc => (default 0%Qc (amount (base (source r))) + acc)%Qc)
        0%Qc l.

Definition group_rows (k : group_key) (l : list enriched) : list enriched :=
  filter (fun r => key_of r = Some k) l.

Definition summarize (l : list enriched) (k : group_key) : summary_row :=
  let '(c, s, f, e, i, v) := k in
  SummaryRow c s f e i v (sum_amounts (group_rows k l)).

Definition compute_summary (df : frame enriched) : result (frame summary_row) :=
  if df_empty df then Ok empty_frame
  else
    match missing_column df (group_columns ++ ["amount"])%list with
    | Some name => KeyError name
    | None =>
        Ok (Frame (group_columns ++ ["total_amount"])%list
              (summarize (rows df) <$> group_keys (rows df)))
    end.

(** The sum of the [total_amount] column. *)
Definition sum_total_amount (l : list summary_row) : Qc :=
  foldr (fun r acc => (total_amount r + acc)%Qc) 0%Qc l.

Definition summary_by_type (df : frame summary_row)
  : result (frame summary_row * frame summary_row * frame summary_row) :=
  if df_empty df then Ok (empty_frame, empty_frame, empty_frame)
  else
    match missing_column df ["is_valonni"; "is_investment"] with
    | Some name => KeyError name
    | None =>
        let pessoal :=
          filter (fun r => negb (s_is_valonni r) && negb (s_is_investment r) = true)
                 (rows df) in
        let valonni := filter (fun r => s_is_valonni r = true) (rows df) in
        let invest := filter (fun r => s_is_investment r = true) (rows df) in
        Ok (Frame (columns df) pessoal, Frame (columns df) valonni,
            Frame (columns df) invest)
    end.

(** ** The pipeline of [display_dashboard] *)

Section Pipeline.

Variable to_datetime : cell → option Date.

(** The block under [st.spinner]: the five calls, one after the other. *)
Definition load (name : string) (table : raw_frame) (cycle_start_day : Z)
  : list message * result (frame enriched) :=
  let '(messages, raw_df) := parse_file to_datetime name table in
  (messages,
   raw_df ← remove_duplicates raw_df;
   let rules := load_category_rules in
   let normalized_df := categorize_transactions raw_df rules in
   normalized_df ← detect_internal_transfers normalized_df;
   assign_competence normalized_df cycle_start_day).

End Pipeline.

(** ** Definitions of the statements, and sample tables *)

Definition sample_ids : frame txn :=
  Frame ["date"; "description"; "amount"; "operation_id"; "activity_id"]
    [ Txn (Some (mkDate 2025 11 3)) (Some (Q2Qc (-25)))
        {[ "description" := Str "Outback"; "operation_id" := Str "op-1";
           "activity_id" := Str "a-1" ]};
      Txn (Some (mkDate 2025 12 9)) (Some (Q2Qc 310))
        {[ "description" := Str "Wise"; "operation_id" := Str "op-1";
           "activity_id" := Str "a-2" ]} ].

Definition sample_null_ids : frame txn :=
  Frame ["date"; "description"; "amount"; "operation_id"]
    [ Txn (Some (mkDate 2025 11 3)) (Some (Q2Qc (-25)))
        {[ "description" := Str "Outback"; "operation_id" := NaN ]};
      Txn (Some (mkDate 2025 12 9)) (Some (Q2Qc 310))
        {[ "description" := Str "Wise"; "operation_id" := NaN ]};
      Txn (Some (mkDate 2025 12 10)) (Some (Q2Qc (-8)))
        {[ "description" := Str "Petshop"; "operation_id" := Str "op-7" ]} ].

Definition blank_title_row : txn :=
  Txn (Some (mkDate 2025 11 3)) (Some (Q2Qc (-120)))
      {[ "title" := NaN; "description" := Str "Outback Steakhouse" ]}.

Definition sample_unmatched : frame txn :=
  Frame ["date"; "description"; "amount"]
    [ Txn (Some (mkDate 2025 11 3)) (Some (Q2Qc (-18)))
          {[ "description" := Str "Padaria Central" ]} ].

(** The holder's name occurs in the description of a row, whatever the
    case of the letters. *)
Definition names_holder (r : classified) : Prop :=
  ∃ s a b,
    fields (base r) !! "description" = Some (Str s)
    ∧ PyStr.lower s = a +:+ "isabela valonni" +:+ b.

Definition sample_transfers : frame classified :=
  Frame ["date"; "title"; "description"; "amount"; "category"; "subcategory";
         "is_fixed"; "is_extraordinary"; "is_investment"; "is_valonni"]
    [ Classified
        (Txn (Some (mkDate 2025 11 3)) (Some (Q2Qc 500))
             {[ "title" := Str "Pix recebido";
                "description" := Str "ISABELA VALONNI" ]})
        unmatched;
      Classified
        (Txn (Some (mkDate 2025 11 4)) (Some (Q2Qc (-90)))
             {[ "title" := Str "Outback";
                "description" := Str "Isabela Valonni" ]})
        (Classification "Alimentação" "Restaurantes" false false false false) ].

(** The competence as the specification words it: none for a missing date;
    the first day of the following month, in the next year after December,
    from the day the cycle starts; the first day of the month of the date
    before that day. *)
Definition spec_competence (cycle_start_day : Z) (d : option Date)
  : option Date :=
  match d with
  | None => None
  | Some d =>
      if decide (cycle_start_day ≤ day d) then
        if decide (month d = 12) then Some (mkDate (year d + 1) 1 1)
        else Some (mkDate (year d) (month d + 1) 1)
      else Some (mkDate (year d) (month d) 1)
  end.

Definition valid_month (d : option Date) : Prop :=
  match d with
  | None => True
  | Some d => 1 ≤ month d ≤ 12
  end.


Definition amount_or_zero (r : enriched) : Qc :=
  default 0%Qc (amount (base (source r))).

Definition sum_over {A : Type} (f : A → Qc) (l : list A) : Qc :=
  foldr (fun x acc => (f x + acc)%Qc) 0%Qc l.


Definition sample_enriched : frame enriched :=
  Frame ["date"; "description"; "amount"; "category"; "subcategory";
         "is_fixed"; "is_extraordinary"; "is_investment"; "is_valonni";
         "competence"]
    [ Enriched
        (Classified
           (Txn (Some (mkDate 2025 11 28)) (Some (Q2Qc (-90)))
                {[ "description" := Str "Outback" ]})
           (Classification "Alimentação" "Restaurantes" false false false false))
        (Some (mkDate 2025 12 1));
      Enriched
        (Classified
           (Txn None (Some (Q2Qc (-15)))
                {[ "description" := Str "Padaria" ]})
           unmatched)
        None;
      Enriched
        (Classified
           (Txn (Some (mkDate 2025 12 2)) None
                {[ "description" := Str "Clark Patisserie" ]})
           (Classification "Alimentação" "Restaurantes" false false false false))
        (Some (mkDate 2025 12 1));
      Enriched
        (Classified
           (Txn (Some (mkDate 2025 11 5)) (Some (Q2Qc 40))
                {[ "description" := Str "Estorno" ]})
           unmatched)
        (Some (mkDate 2025 11 1)) ].

Definition is_digit (c : ascii) : bool :=
  match digit c with
  | Some _ => true
  | None => false
  end.

Fixpoint all_digits (s : string) : bool :=
  match s with
  | EmptyString => true
  | String c s' => is_digit c && all_digits s'
  end.

(** Digits and points: an integer part written with thousands separators. *)
Fixpoint digits_and_points (s : string) : bool :=
  match s with
  | EmptyString => true
  | String c s' => (is_digit c || Ascii.eqb c ".") && digits_and_points s'
  end.

(** The integer that digits write, after the digits that gave [acc]. *)
Fixpoint digits_from (acc : Z) (s : string) : Z :=
  match s with
  | EmptyString => acc
  | String c s' => digits_from (10 * acc + default 0 (digit c)) s'
  end.

Definition sign_value (sign : string) : Z :=
  if String.eqb sign "-" then -1 else 1.

Definition is_sign (sign : string) : Prop :=
  sign = "" ∨ sign = "-" ∨ sign = "+".

Definition supported (name : string) : bool :=
  PyStr.endswith (PyStr.lower name) ".csv"
  || (PyStr.endswith (PyStr.lower name) ".xls"
      || PyStr.endswith (PyStr.lower name) ".xlsx").

(** What [parse_file] reports before it looks for the amount column. *)
Definition date_warnings (table : raw_frame) : list message :=
  if bool_decide ("date" ∈ normalized_columns (raw_columns table)) then []
  else [Warning "Coluna de data não encontrada; tentando usar 'data'."].

Definition statement_without_amount : raw_frame :=
  RawFrame ["Date"; "Description"]
    [ [Str "2025-11-28"; Str "Outback Steakhouse"] ].

(** ** Definitions of further statements *)

(** What the deduplicator compares without identifier column. *)
Definition composite_key (r : txn) : option Date * option cell * option Qc :=
  (date r, fields r !! "description", amount r).

(** A rule with its keywords written in lower case. *)
Definition lower_keywords (rule : CategoryRule) : CategoryRule :=
  CategoryRule.mk (CategoryRule.category rule) (CategoryRule.subcategory rule)
    (PyStr.lower <$> CategoryRule.keywords rule)
    (CategoryRule.is_fixed rule) (CategoryRule.is_extraordinary rule)
    (CategoryRule.is_investment rule) (CategoryRule.is_valonni rule).

(** A row with its texts written in lower case. *)
Definition lower_cell (c : cell) : cell :=
  match c with
  | NaN => NaN
  | Str s => Str (PyStr.lower s)
  end.

Definition lower_texts (r : txn) : txn :=
  Txn (date r) (amount r) (lower_cell <$> fields r).

Definition sample_yasmin : frame txn :=
  Frame ["date"; "description"; "amount"]
    [ Txn (Some (mkDate 2025 11 3)) (Some (Q2Qc (-800)))
          {[ "description" := Str "Pix Yasmin Investimentos" ]} ].

(** The key of a row of the summary. *)
Definition summary_key (s : summary_row) : group_key :=
  (s_competence s, s_category s, s_is_fixed s, s_is_extraordinary s,
   s_is_investment s, s_is_valonni s).

(** The rows of the summary that carry both purpose flags. *)
Definition both_flags (s : summary_row) : Prop :=
  s_is_valonni s = true ∧ s_is_investment s = true.

Global Instance both_flags_dec (s : summary_row) : Decision (both_flags s).
Proof. unfold both_flags. apply _. Defined.

Definition sample_summary : frame summary_row :=
  Frame (group_columns ++ ["total_amount"])%list
    [ SummaryRow (mkDate 2025 12 1) "Alimentação" false false false false
        (Q2Qc (-90));
      SummaryRow (mkDate 2025 12 1) "Empresa Valonni" false false false true
        (Q2Qc (-300));
      SummaryRow (mkDate 2025 12 1) "Investimentos" false false true false
        (Q2Qc (-500)) ].

(** What [detect_internal_transfers] does to one row. *)
Definition reclassify (r : classified) : classified :=
  if String.eqb (category (cls r)) "Revisar" && mentions_holder r
  then set_category "Transferência interna" r
  else r.

(** What the five stages of [load] make of one row that the deduplicator
    kept. *)
Definition enrich (cycle_start_day : Z) (r : txn) : enriched :=
  Enriched
    (reclassify (Classified r (classify load_category_rules (desc r))))
    (competence_of cycle_start_day (date r)).

Definition sample_statement : raw_frame :=
  RawFrame ["Data"; "Description"; "Valor"]
    [ [Str "2025-11-28"; Str "Outback Steakhouse"; Str "-120,50"];
      [Str "2025-11-29"; Str "Wise Payments"; Str "-1.000,00"];
      [Str "2025-11-30"; Str "Pix Isabela Valonni"; Str "300,00"] ].

(** A reader of dates that knows the three dates of the sample. *)
Definition sample_to_datetime (c : cell) : option Date :=
  match c with
  | Str "2025-11-28" => Some (mkDate 2025 11 28)
  | Str "2025-11-29" => Some (mkDate 2025 11 29)
  | Str "2025-11-30" => Some (mkDate 2025 11 30)
  | _ => None
  end.

(** The table [load] returns for the sample statement. *)
Definition sample_loaded : frame enriched :=
  match load sample_to_datetime "extrato.csv" sample_statement 28 with
  | (_, Ok df) => df
  | (_, KeyError _) => empty_frame
  end.

(** What holds of every row [load] returns. *)
Definition loaded_row (r : enriched) : Prop :=
  ¬ (is_valonni (cls (source r)) = true ∧ is_investment (cls (source r)) = true)
  ∧ (category (cls (source r)) = "Revisar" → ¬ names_holder (source r))
  ∧ (category (cls (source r)) = "Transferência interna" →
     subcategory (cls (source r)) = ""
     ∧ is_fixed (cls (source r)) = false
     ∧ is_extraordinary (cls (source r)) = false
     ∧ is_investment (cls (source r)) = false
     ∧ is_valonni (cls (source r)) = false).

(** A date of the calendar, as far as the competence looks at it. *)
Definition valid_date (d : Date) : Prop :=
  1 ≤ month d ≤ 12 ∧ 1 ≤ day d ≤ 31.

(** The month before a month, as first day. *)
Definition previous_month (c : Date) : Date :=
  if decide (month c = 1) then mkDate (year c - 1) 12 1
  else mkDate (year c) (month c - 1) 1.

(** ** The summaries of [display_dashboard] *)

(** [pessoal_df.groupby("category", as_index=False)["total_amount"].sum()],
    the table of the chart before it is ordered by amount: the categories
    in increasing order, each with the sum of its rows. *)
Definition category_totals (pessoal_df : frame summary_row)
  : result (list (string * Qc)) :=
  if negb (has_column pessoal_df "category") then KeyError "category"
  else if negb (has_column pessoal_df "total_amount") then KeyError "total_amount"
  else
    Ok ((fun c =>
           (c, sum_total_amount
                 (filter (fun s => s_category s = c) (rows pessoal_df))))
        <$> sort String.leb (keep_first id (s_category <$> rows pessoal_df))).

(** What the dashboard computes from the loaded table: nothing when the
    table is empty, else the summary, its three tables and the table of the
    chart. *)
Definition dashboard (data_df : frame enriched)
  : result (option (frame summary_row
                    * (frame summary_row * frame summary_row * frame summary_row)
                    * list (string * Qc))) :=
  if df_empty data_df then Ok None
  else
    summary_df ← compute_summary data_df;
    tables ← summary_by_type summary_df;
    cat_summary ← category_totals tables.1.1;
    Ok (Some (summary_df, tables, cat_summary)).

Definition sample_undated : frame enriched :=
  Frame ["description"; "amount"; "date"; "category"; "subcategory";
         "is_fixed"; "is_extraordinary"; "is_investment"; "is_valonni";
         "competence"]
    [ Enriched
        (Classified
           (Txn None (Some (Q2Qc (-15)))
                {[ "description" := Str "Padaria" ]})
           unmatched)
        None ].


(** * Properties *)

(** ** Strings *)

Lemma string_app_nil (s : string) : EmptyString +:+ s = s.
Proof. reflexivity. Qed.

Lemma string_app_cons (c : ascii) (a b : string) :
  String c a +:+ b = String c (a +:+ b).
Proof. reflexivity. Qed.

Lemma prefix_app (p s : string) :
  String.prefix p s = true ↔ ∃ b, s = p +:+ b.
Proof.
  revert s. induction p as [|c p IH]; intros s; simpl.
  - split; [by exists s | by destruct s].
  - destruct s as [|d s]; simpl.
    + split; [done | intros [b Hb]; discriminate].
    + destruct (ascii_dec c d) as [->|Hne].
      * rewrite IH. split; intros [b Hb]; exists b.
        -- by rewrite string_app_cons, Hb.
        -- rewrite string_app_cons in Hb. by injection Hb.
      * split; [done | intros [b Hb]].
        rewrite string_app_cons in Hb. injection Hb; congruence.
Qed.

Lemma contains_nil (sub : string) :
  PyStr.contains sub EmptyString = String.prefix sub EmptyString.
Proof. cbn [PyStr.contains]. apply orb_false_r. Qed.

Lemma contains_cons (sub : string) (c : ascii) (s : string) :
  PyStr.contains sub (String c s)
  = String.prefix sub (String c s) || PyStr.contains sub s.
Proof. reflexivity. Qed.

(** [contains] is the substring test. *)
Lemma contains_spec (sub s : string) :
  PyStr.contains sub s = true ↔ ∃ a b, s = a +:+ sub +:+ b.
Proof.
  induction s as [|c s IH].
  - rewrite contains_nil, prefix_app. split.
    + intros [b Hb]. by exists EmptyString, b.
    + intros (a & b & Hab). destruct a; [by exists b | discriminate].
  - rewrite contains_cons, orb_true_iff, prefix_app, IH. split.
    + intros [[b Hb] | (a & b & Hab)].
      * by exists EmptyString, b.
      * exists (String c a), b. by rewrite string_app_cons, Hab.
    + intros (a & b & Hab). destruct a as [|d a].
      * left. by exists b.
      * right. rewrite string_app_cons in Hab. injection Hab as _ Hab.
        by exists a, b.
Qed.

(** ** Frames *)

Lemma has_column_true {A : Type} (df : frame A) (name : string) :
  has_column df name = true ↔ name ∈ columns df.
Proof. unfold has_column. apply bool_decide_eq_true. Qed.

Lemma df_empty_with_column {A : Type} (df : frame A) (name : string) :
  name ∈ columns df → df_empty df = true → rows df = [].
Proof.
  unfold df_empty. intros Hin. destruct (columns df) as [|c cols].
  - by apply elem_of_nil in Hin.
  - by destruct (rows df).
Qed.

(** ** Keeping the first row of every key *)

Section KeepFirst.

Context {A K : Type} `{EqDecision K} (key : A → K).

Lemma keep_first_from_cons (seen : list K) (x : A) (l : list A) :
  keep_first_from key seen (x :: l)
  = if decide (key x ∈ seen) then keep_first_from key (key x :: seen) l
    else x :: keep_first_from key (key x :: seen) l.
Proof.
  unfold keep_first_from. cbn [fmap list_fmap duplicated_from select].
  destruct (decide (key x ∈ seen)) as [Hin|Hin].
  - by rewrite (bool_decide_eq_true_2 _ Hin).
  - by rewrite (bool_decide_eq_false_2 _ Hin).
Qed.

(** Of the rows of one key, the first is kept and no other, unless the key
    was seen before. *)
Lemma filter_keep_first_from (k : K) (seen : list K) (l : list A) :
  filter (fun x => key x = k) (keep_first_from key seen l)
  = if decide (k ∈ seen) then []
    else take 1 (filter (fun x => key x = k) l).
Proof.
  revert seen. induction l as [|x l IH]; intros seen.
  - by destruct (decide (k ∈ seen)).
  - rewrite keep_first_from_cons.
    assert (k ∈ key x :: seen ↔ key x = k ∨ k ∈ seen) as Hcons
      by (rewrite elem_of_cons; intuition congruence).
    destruct (decide (key x ∈ seen)) as [Hx|Hx];
      rewrite ?filter_cons, IH;
      destruct (decide (key x = k)) as [Hk|Hk];
      destruct (decide (k ∈ key x :: seen)) as [Hc|Hc];
      destruct (decide (k ∈ seen)) as [Hs|Hs];
      try done; try (exfalso; rewrite Hcons in Hc; subst; tauto).
Qed.

Lemma filter_keep_first (k : K) (l : list A) :
  filter (fun x => key x = k) (keep_first key l)
  = take 1 (filter (fun x => key x = k) l).
Proof.
  change (keep_first key l) with (keep_first_from key [] l).
  rewrite filter_keep_first_from. apply decide_False, not_elem_of_nil.
Qed.

(** The rows kept stand in the order they had. *)
Lemma keep_first_from_sublist (seen : list K) (l : list A) :
  keep_first_from key seen l `sublist_of` l.
Proof.
  revert seen. induction l as [|x l IH]; intros seen.
  - constructor.
  - rewrite keep_first_from_cons. destruct (decide (key x ∈ seen)).
    + by apply sublist_cons.
    + by apply sublist_skip.
Qed.

Lemma keep_first_sublist (l : list A) : keep_first key l `sublist_of` l.
Proof. apply (keep_first_from_sublist []). Qed.

Lemma elem_of_keep_first (x : A) (l : list A) :
  x ∈ keep_first key l → x ∈ l.
Proof. intros Hx. apply (elem_of_sublist _ _ _ Hx), keep_first_sublist. Qed.

(** Every key of the list is the key of a row that is kept. *)
Lemma keep_first_covers (x : A) (l : list A) :
  x ∈ l → ∃ y, y ∈ keep_first key l ∧ key y = key x.
Proof.
  intros Hx.
  assert (x ∈ filter (fun y => key y = key x) l) as Hf
    by (by apply list_elem_of_filter).
  pose proof (filter_keep_first (key x) l) as Heq.
  destruct (filter (fun y => key y = key x) l) as [|y f] eqn:Hfy.
  - by apply elem_of_nil in Hf.
  - exists y. simpl in Heq.
    assert (y ∈ filter (fun y => key y = key x) (keep_first key l)) as Hy
      by (rewrite Heq; apply list_elem_of_here).
    by apply list_elem_of_filter in Hy as [? ?].
Qed.

(** No two rows that are kept have the same key. *)
Lemma keep_first_NoDup (l : list A) : NoDup (key <$> keep_first key l).
Proof.
  assert (∀ seen, NoDup (key <$> keep_first_from key seen l)
                  ∧ ∀ x, x ∈ keep_first_from key seen l → key x ∉ seen) as H0.
  { induction l as [|x l IH]; intros seen.
    - split; [constructor | intros x Hx; by apply elem_of_nil in Hx].
    - rewrite keep_first_from_cons.
      destruct (IH (key x :: seen)) as [Hnd Hout].
      destruct (decide (key x ∈ seen)) as [Hx|Hx].
      + split; [done|]. intros y Hy Hin. apply (Hout y Hy).
        by apply elem_of_cons; right.
      + split.
        * rewrite fmap_cons. constructor; [|done].
          intros (y & Hk & Hy)%list_elem_of_fmap.
          apply (Hout y Hy). rewrite <- Hk. apply list_elem_of_here.
        * intros y [->|Hy]%elem_of_cons; [done|].
          intros Hin. apply (Hout y Hy). by apply elem_of_cons; right. }
  apply (H0 []).
Qed.

End KeepFirst.

(** The marks depend on which keys are equal, not on the keys. *)
Lemma duplicated_from_inj {K L : Type} `{EqDecision K} `{EqDecision L}
  (f : K → L) `{!Inj (=) (=) f} (seen keys : list K) :
  duplicated_from (f <$> seen) (f <$> keys) = duplicated_from seen keys.
Proof.
  revert seen. induction keys as [|k keys IH]; intros seen; [done|].
  cbn [fmap list_fmap duplicated_from]. f_equal.
  - apply bool_decide_ext. rewrite list_elem_of_fmap. split.
    + intros (y & Hy & Hin). by apply (inj f) in Hy as ->.
    + intros Hin. by exists k.
  - apply (IH (k :: seen)).
Qed.

Lemma keep_first_inj {A K L : Type} `{EqDecision K} `{EqDecision L}
  (f : K → L) `{!Inj (=) (=) f} (key : A → K) (l : list A) :
  keep_first (fun x => f (key x)) l = keep_first key l.
Proof.
  unfold keep_first, duplicated. f_equal. f_equal.
  rewrite (list_fmap_compose key f).
  apply (duplicated_from_inj f [] (key <$> l)).
Qed.

(** ** Deduplicator *)

Global Instance text_key_inj : Inj (=) (=) (fun c : option cell => [TextValue c]).
Proof. intros c1 c2 Heq. by injection Heq. Qed.

(** On one text column, [drop_duplicates] keeps of every value of the column
    the first row that has it. *)
Lemma drop_duplicates_text (name : string) (df : frame txn) :
  name ∈ columns df → name ≠ "date" → name ≠ "amount" →
  drop_duplicates [name] df
  = Ok (Frame (columns df) (keep_first (id_in name) (rows df))).
Proof.
  intros Hin Hd Ha. unfold drop_duplicates.
  destruct (df_empty df) eqn:Hempty.
  - pose proof (df_empty_with_column df name Hin Hempty) as Hrows.
    destruct df as [cols rws]. cbn [rows columns] in *. by subst rws.
  - unfold missing_column. cbn [List.find].
    rewrite (proj2 (has_column_true df name) Hin). cbn [negb].
    do 2 f_equal.
    rewrite <- (keep_first_inj (fun c => [TextValue c]) (id_in name)).
    unfold keep_first. f_equal. f_equal. f_equal. apply list_fmap_ext.
    intros _ r _. cbn [fmap list_fmap]. unfold column_value.
    apply String.eqb_neq in Hd, Ha. by rewrite Hd, Ha.
Qed.

(** With an [operation_id] column the rows are compared on it alone. *)
Lemma remove_duplicates_operation_id (df : frame txn) :
  has_column df "operation_id" = true →
  remove_duplicates df
  = Ok (Frame (columns df) (keep_first (id_in "operation_id") (rows df))).
Proof.
  intros Hop. unfold remove_duplicates. rewrite Hop.
  apply drop_duplicates_text; [by apply has_column_true | done..].
Qed.

(** Without it, with an [activity_id] column, on that one. *)
Lemma remove_duplicates_activity_id (df : frame txn) :
  has_column df "operation_id" = false →
  has_column df "activity_id" = true →
  remove_duplicates df
  = Ok (Frame (columns df) (keep_first (id_in "activity_id") (rows df))).
Proof.
  intros Hop Hact. unfold remove_duplicates. rewrite Hop, Hact.
  apply drop_duplicates_text; [by apply has_column_true | done..].
Qed.

(** C4. When the [operation_id] column is present, [remove_duplicates]
    succeeds and keeps the rows that the marks of [duplicated], computed from
    the [operation_id] column alone, leave unmarked: whatever [activity_id]
    and the other fields hold plays no part.  The rows kept stand in their
    original order; of the rows that share one [operation_id] exactly the
    first is kept; and two rows with the same [operation_id] collapse to the
    first, whatever else they hold. *)
Theorem remove_duplicates_on_operation_id (df : frame txn)
  (Hop : has_column df "operation_id" = true) :
  ∃ out,
    remove_duplicates df = Ok out
    ∧ columns out = columns df
    ∧ rows out
      = select (negb <$> duplicated (id_in "operation_id" <$> rows df)) (rows df)
    ∧ rows out `sublist_of` rows df
    ∧ (∀ id, filter (fun r => id_in "operation_id" r = id) (rows out)
             = take 1 (filter (fun r => id_in "operation_id" r = id) (rows df)))
    ∧ (∀ r1 r2,
         rows df = [r1; r2] →
         id_in "operation_id" r1 = id_in "operation_id" r2 →
         rows out = [r1]).
Proof.
  eexists. split; [by apply remove_duplicates_operation_id|].
  cbn [columns rows]. split; [done|]. split; [done|].
  split; [apply keep_first_sublist|].
  split; [intros id; apply filter_keep_first|].
  intros r1 r2 -> Heq. unfold keep_first, duplicated.
  cbn [fmap list_fmap duplicated_from select].
  rewrite (bool_decide_eq_false_2 _ (not_elem_of_nil _)).
  rewrite bool_decide_eq_true_2; [done|].
  rewrite Heq. apply list_elem_of_here.
Qed.

(** A row is marked exactly when an earlier row has its key. *)
Lemma duplicated_from_lookup {K : Type} `{EqDecision K}
  (seen keys : list K) (j : nat) (k : K) :
  keys !! j = Some k →
  duplicated_from seen keys !! j
  = Some (bool_decide (k ∈ seen ∨ k ∈ take j keys)).
Proof.
  revert seen j. induction keys as [|k0 keys IH]; intros seen j Hj; [done|].
  destruct j as [|j]; cbn [duplicated_from].
  - injection Hj as ->. cbn. f_equal. apply bool_decide_ext.
    rewrite elem_of_nil. tauto.
  - cbn in Hj. cbn [lookup list_lookup take]. rewrite (IH _ _ Hj). f_equal.
    apply bool_decide_ext. rewrite !elem_of_cons. tauto.
Qed.

Lemma duplicated_lookup {K : Type} `{EqDecision K}
  (keys : list K) (j : nat) (k : K) :
  keys !! j = Some k →
  duplicated keys !! j = Some (bool_decide (k ∈ take j keys)).
Proof.
  intros Hj. unfold duplicated. rewrite (duplicated_from_lookup _ _ _ _ Hj).
  f_equal. apply bool_decide_ext. rewrite elem_of_nil. tauto.
Qed.

Lemma remove_duplicates_on_operation_id_witness :
  has_column sample_ids "operation_id" = true
  ∧ ∃ out,
      remove_duplicates sample_ids = Ok out
      ∧ columns out = columns sample_ids
      ∧ rows out
        = select (negb <$> duplicated (id_in "operation_id" <$> rows sample_ids))
                 (rows sample_ids)
      ∧ rows out `sublist_of` rows sample_ids
      ∧ (∀ id, filter (fun r => id_in "operation_id" r = id) (rows out)
               = take 1 (filter (fun r => id_in "operation_id" r = id)
                                (rows sample_ids)))
      ∧ (∀ r1 r2,
           rows sample_ids = [r1; r2] →
           id_in "operation_id" r1 = id_in "operation_id" r2 →
           rows out = [r1]).
Proof.
  split; [reflexivity|].
  apply (remove_duplicates_on_operation_id sample_ids). reflexivity.
Defined.

(** C10. In the column that decides ([operation_id] when it is present,
    [activity_id] when only that one is), missing identifiers count as equal
    to each other: of the rows whose identifier is NaN only the first is
    kept, and every later one is marked as a duplicate and removed, whatever
    its date, description and amount. *)
Theorem remove_duplicates_null_ids (df : frame txn) (key : string)
  (Hkey : (has_column df "operation_id" = true ∧ key = "operation_id")
          ∨ (has_column df "operation_id" = false
             ∧ has_column df "activity_id" = true ∧ key = "activity_id")) :
  ∃ out,
    remove_duplicates df = Ok out
    ∧ rows out = select (negb <$> duplicated (id_in key <$> rows df)) (rows df)
    ∧ filter (fun r => id_in key r = Some NaN) (rows out)
      = take 1 (filter (fun r => id_in key r = Some NaN) (rows df))
    ∧ (∀ i j ri rj,
         (i < j)%nat →
         rows df !! i = Some ri → rows df !! j = Some rj →
         id_in key ri = Some NaN → id_in key rj = Some NaN →
         duplicated (id_in key <$> rows df) !! j = Some true).
Proof.
  exists (Frame (columns df) (keep_first (id_in key) (rows df))).
  split.
  { destruct Hkey as [[Hop ->] | (Hop & Hact & ->)].
    - by apply remove_duplicates_operation_id.
    - by apply remove_duplicates_activity_id. }
  cbn [rows]. split; [done|]. split; [apply filter_keep_first|].
  intros i j ri rj Hlt Hi Hj Hni Hnj.
  rewrite (duplicated_lookup _ j (id_in key rj)) by (by rewrite list_lookup_fmap, Hj).
  f_equal. apply bool_decide_eq_true_2.
  apply list_elem_of_lookup. exists i.
  rewrite lookup_take_lt by done.
  by rewrite list_lookup_fmap, Hi, Hnj, <- Hni.
Qed.

Lemma remove_duplicates_null_ids_witness :
  ((has_column sample_null_ids "operation_id" = true
    ∧ "operation_id" = "operation_id")
   ∨ (has_column sample_null_ids "operation_id" = false
      ∧ has_column sample_null_ids "activity_id" = true
      ∧ "operation_id" = "activity_id"))
  ∧ ∃ out,
      remove_duplicates sample_null_ids = Ok out
      ∧ rows out
        = select (negb <$> duplicated (id_in "operation_id" <$> rows sample_null_ids))
                 (rows sample_null_ids)
      ∧ filter (fun r => id_in "operation_id" r = Some NaN) (rows out)
        = take 1 (filter (fun r => id_in "operation_id" r = Some NaN)
                         (rows sample_null_ids))
      ∧ (∀ i j ri rj,
           (i < j)%nat →
           rows sample_null_ids !! i = Some ri →
           rows sample_null_ids !! j = Some rj →
           id_in "operation_id" ri = Some NaN →
           id_in "operation_id" rj = Some NaN →
           duplicated (id_in "operation_id" <$> rows sample_null_ids) !! j
           = Some true).
Proof.
  assert ((has_column sample_null_ids "operation_id" = true
           ∧ "operation_id" = "operation_id")
          ∨ (has_column sample_null_ids "operation_id" = false
             ∧ has_column sample_null_ids "activity_id" = true
             ∧ "operation_id" = "activity_id")) as Hkey
    by (left; split; reflexivity).
  split; [exact Hkey|].
  exact (remove_duplicates_null_ids sample_null_ids "operation_id" Hkey).
Defined.

(** ** Rule-Based Classifier *)

(** A rule matches when one of its keywords, lower-cased, occurs in the
    text. *)
Lemma rule_matches_spec (text : string) (rule : CategoryRule) :
  rule_matches text rule = true
  ↔ ∃ keyword a b,
      keyword ∈ CategoryRule.keywords rule
      ∧ text = a +:+ PyStr.lower keyword +:+ b.
Proof.
  unfold rule_matches. rewrite existsb_exists. split.
  - intros (keyword & Hin & (a & b & Hab)%contains_spec).
    exists keyword, a, b. by rewrite list_elem_of_In.
  - intros (keyword & a & b & Hin & Hab). exists keyword.
    rewrite <- list_elem_of_In. split; [done|].
    apply contains_spec. by exists a, b.
Qed.

(** The rule selected is the first one that matches: it matches, and no
    rule before it does. *)
Lemma first_match_Some (text : string) (rules : list CategoryRule)
  (rule : CategoryRule) :
  first_match text rules = Some rule
  ↔ ∃ before after,
      rules = (before ++ rule :: after)%list
      ∧ rule_matches text rule = true
      ∧ Forall (fun r => rule_matches text r = false) before.
Proof.
  induction rules as [|r rules IH]; cbn [first_match].
  - split; [done | intros ([|] & ? & ? & _); discriminate].
  - destruct (rule_matches text r) eqn:Hr.
    + split.
      * intros [= ->]. by exists [], rules.
      * intros ([|r' before] & after & Heq & Hm & Hbefore).
        -- by injection Heq as ->.
        -- injection Heq as -> _. apply Forall_cons in Hbefore as [Hr' _].
           congruence.
    + rewrite IH. split.
      * intros (before & after & -> & Hm & Hbefore).
        exists (r :: before), after. by repeat split; [|constructor].
      * intros ([|r' before] & after & Heq & Hm & Hbefore).
        -- injection Heq as -> _. congruence.
        -- injection Heq as -> ->. apply Forall_cons in Hbefore as [_ ?].
           by exists before, after.
Qed.

Lemma first_match_None (text : string) (rules : list CategoryRule) :
  first_match text rules = None
  ↔ Forall (fun r => rule_matches text r = false) rules.
Proof.
  induction rules as [|r rules IH]; cbn [first_match].
  - split; [constructor | done].
  - rewrite Forall_cons. destruct (rule_matches text r); [|rewrite IH];
      intuition congruence.
Qed.

(** First-match policy: when rule A stands before rule B, both match, and
    no rule before A matches, the classification is that of A. *)
Lemma classify_first_match (text : string) (before middle after : list CategoryRule)
  (A B : CategoryRule) :
  Forall (fun r => rule_matches text r = false) before →
  rule_matches text A = true →
  rule_matches text B = true →
  classify (before ++ A :: middle ++ B :: after) text = of_rule A.
Proof.
  intros Hbefore HA _. unfold classify.
  assert (first_match text (before ++ A :: middle ++ B :: after) = Some A) as ->;
    [|done].
  apply first_match_Some. by exists before, (middle ++ B :: after)%list.
Qed.

(** With the rules of the prototype, "Yasmin Investimentos" is a car expense:
    the rule "Carro" stands before the rule "Investimentos". *)
Lemma classify_yasmin_investimentos :
  classify load_category_rules (PyStr.lower "Yasmin Investimentos")
  = {| category := "Carro"; subcategory := "Compra/Manutenção";
       is_fixed := false; is_extraordinary := true;
       is_investment := false; is_valonni := false |}.
Proof. vm_compute. reflexivity. Qed.

(** The text of a row whose title is a string that is not empty is the
    title; without a title column, or with an empty title, it is the
    description when that is a string. *)
Lemma desc_title (r : txn) (s : string) :
  row_get r "title" = Some (Str s) → s ≠ "" → desc r = PyStr.lower s.
Proof.
  intros Ht Hs. unfold desc, py_or. rewrite Ht. cbn [truthy].
  apply String.eqb_neq in Hs. rewrite Hs. cbn [negb truthy py_str].
  by rewrite Hs.
Qed.

Lemma desc_description (r : txn) (s : string) :
  row_get r "title" = None ∨ row_get r "title" = Some (Str "") →
  row_get r "description" = Some (Str s) →
  desc r = PyStr.lower s.
Proof.
  intros Ht Hd. unfold desc, py_or.
  assert (truthy (row_get r "title") = false) as -> by (by destruct Ht as [-> | ->]).
  rewrite Hd. cbn [truthy]. by destruct (String.eqb s "") eqn:Hs;
    [apply String.eqb_eq in Hs as ->|].
Qed.

(** A title cell that is NaN is true for [or], and its text is "nan". *)
Lemma desc_nan_title (r : txn) :
  row_get r "title" = Some NaN → desc r = "nan".
Proof. intros Ht. unfold desc, py_or. by rewrite Ht. Qed.

(** C1, at a row whose title cell is blank.  The reader delivers the blank
    cell as NaN, which [or] takes as true: the matching text is "nan" and
    not the description, no keyword occurs in it, and the row is marked
    "Revisar", whereas the description itself is a restaurant expense under
    the second rule. *)
Theorem categorize_blank_title :
  desc blank_title_row = "nan"
  ∧ rows (categorize_transactions
            (Frame ["date"; "title"; "description"; "amount"] [blank_title_row])
            load_category_rules)
    = [Classified blank_title_row unmatched]
  ∧ classify load_category_rules (PyStr.lower "Outback Steakhouse")
    = {| category := "Alimentação"; subcategory := "Restaurantes";
         is_fixed := false; is_extraordinary := false;
         is_investment := false; is_valonni := false |}.
Proof. repeat split; vm_compute; reflexivity. Qed.

Lemma classify_cases (rules : list CategoryRule) (text : string) :
  category (classify rules text) = "Revisar"
  ∨ ∃ rule, rule ∈ rules ∧ rule_matches text rule = true
            ∧ classify rules text = of_rule rule.
Proof.
  unfold classify. destruct (first_match text rules) as [rule|] eqn:Hm.
  - right. exists rule. apply first_match_Some in Hm
      as (before & after & -> & Hrule & _).
    split; [|done]. apply elem_of_app. right. apply list_elem_of_here.
  - by left.
Qed.

(** C7. A row whose matching text holds no keyword of any rule is kept, at
    its place, with category "Revisar", an empty subcategory and the four
    flags false.  The classifier returns one row for every row it was given,
    with the row it came from unchanged, and every row has a category: the
    review marker or the category of a rule. *)
Theorem categorize_unmatched (df : frame txn) (rules : list CategoryRule)
  (i : nat) (r : txn)
  (Hrow : rows df !! i = Some r)
  (Hnone : Forall (fun rule =>
             Forall (fun keyword =>
               PyStr.contains (PyStr.lower keyword) (desc r) = false)
               (CategoryRule.keywords rule)) rules) :
  rows (categorize_transactions df rules) !! i
  = Some (Classified r
            {| category := "Revisar"; subcategory := "";
               is_fixed := false; is_extraordinary := false;
               is_investment := false; is_valonni := false |})
  ∧ List.length (rows (categorize_transactions df rules)) = List.length (rows df)
  ∧ base <$> rows (categorize_transactions df rules) = rows df
  ∧ ∀ r', r' ∈ rows (categorize_transactions df rules) →
          category (cls r') = "Revisar"
          ∨ ∃ rule, rule ∈ rules ∧ cls r' = of_rule rule.
Proof.
  cbn [categorize_transactions rows]. repeat split.
  - rewrite list_lookup_fmap, Hrow. cbn. do 2 f_equal.
    unfold classify.
    assert (first_match (desc r) rules = None) as ->; [|done].
    apply first_match_None. eapply Forall_impl; [exact Hnone|].
    intros rule Hkeys. unfold rule_matches.
    apply not_true_is_false. rewrite existsb_exists.
    intros (keyword & Hin & Hc). rewrite Forall_forall in Hkeys.
    apply list_elem_of_In in Hin. specialize (Hkeys keyword Hin). congruence.
  - apply length_fmap.
  - rewrite <- list_fmap_compose. apply list_fmap_id.
  - intros r' (r0 & -> & _)%list_elem_of_fmap. cbn [cls].
    destruct (classify_cases rules (desc r0)) as [?|(rule & ? & _ & ?)];
      [by left | right; by exists rule].
Qed.

Lemma categorize_unmatched_witness :
  rows sample_unmatched !! 0%nat
  = Some (Txn (Some (mkDate 2025 11 3)) (Some (Q2Qc (-18)))
              {[ "description" := Str "Padaria Central" ]})
  ∧ rows (categorize_transactions sample_unmatched load_category_rules) !! 0%nat
    = Some (Classified
              (Txn (Some (mkDate 2025 11 3)) (Some (Q2Qc (-18)))
                   {[ "description" := Str "Padaria Central" ]})
              {| category := "Revisar"; subcategory := "";
                 is_fixed := false; is_extraordinary := false;
                 is_investment := false; is_valonni := false |}).
Proof.
  split; [reflexivity|].
  refine (proj1 (categorize_unmatched sample_unmatched load_category_rules 0
                   (Txn (Some (mkDate 2025 11 3)) (Some (Q2Qc (-18)))
                        {[ "description" := Str "Padaria Central" ]}) _ _)).
  - reflexivity.
  - repeat (first [apply List.Forall_nil | apply List.Forall_cons]);
      vm_compute; reflexivity.
Defined.

(** ** Transfer Disambiguator *)

Lemma elem_of_set_column (name c : string) (cols : list string) :
  c ∈ set_column name cols ↔ c = name ∨ c ∈ cols.
Proof.
  unfold set_column. case_bool_decide as Hin.
  - split; [auto | intros [->|?]; done].
  - rewrite elem_of_app, list_elem_of_singleton. tauto.
Qed.

Lemma elem_of_categorize_columns (df : frame txn) (rules : list CategoryRule)
  (c : string) :
  c ∈ columns (categorize_transactions df rules)
  ↔ c ∈ classification_columns ∨ c ∈ columns df.
Proof.
  unfold categorize_transactions, classification_columns.
  cbn [columns foldl].
  rewrite !elem_of_set_column, !elem_of_cons, elem_of_nil. tauto.
Qed.

Lemma mentions_holder_spec (r : classified) :
  mentions_holder r = true ↔ names_holder r.
Proof.
  unfold mentions_holder, names_holder.
  destruct (fields (base r) !! "description") as [[|s]|] eqn:Hd.
  - split; [done | intros (s & a & b & [=] & _)].
  - unfold PyStr.contains_nocase.
    change (PyStr.lower "isabela valonni") with "isabela valonni".
    rewrite contains_spec. split.
    + intros (a & b & Hab). by exists s, a, b.
    + intros (s' & a & b & [= <-] & Hab). by exists a, b.
  - split; [done | intros (s & a & b & [=] & _)].
Qed.




(** ** Competence Assigner *)

Lemma competence_of_spec (cycle_start_day : Z) (d : option Date) :
  valid_month d →
  competence_of cycle_start_day d = spec_competence cycle_start_day d.
Proof.
  destruct d as [[y m dd]|]; [|done]. cbn. intros Hm.
  unfold add_months. cbn [year month day].
  destruct (Z.geb_spec dd cycle_start_day) as [Hge|Hlt].
  - rewrite decide_True by lia.
    destruct (decide (m = 12)) as [->|Hne]; [done|].
    destruct (Z.gtb_spec (m + 1) 12) as [?|_]; [lia|].
    destruct (Z.ltb_spec (m + 1) 1) as [?|_]; [lia|]. done.
  - by rewrite decide_False by lia.
Qed.

(** C3. On a frame with a [date] column whose dates have a month of the
    calendar, [assign_competence] succeeds and gives every row, at its place,
    the competence of the specification: none for a missing date, the first
    day of the following month (of January of the next year after December)
    when the day is at least [cycle_start_day], the first day of the month of
    the date otherwise.  With 28 as the first day of the cycle the four dates
    around the ends of November and December 2025 fall as stated. *)
Theorem assign_competence_cycle (df : frame classified) (cycle_start_day : Z)
  (Hdate : has_column df "date" = true)
  (Hvalid : Forall (fun r => valid_month (date (base r))) (rows df)) :
  (∃ out,
     assign_competence df cycle_start_day = Ok out
     ∧ rows out
       = (fun r => Enriched r (spec_competence cycle_start_day (date (base r))))
           <$> rows df)
  ∧ competence_of cycle_start_day None = None
  ∧ competence_of 28 (Some (mkDate 2025 11 27)) = Some (mkDate 2025 11 1)
  ∧ competence_of 28 (Some (mkDate 2025 11 28)) = Some (mkDate 2025 12 1)
  ∧ competence_of 28 (Some (mkDate 2025 12 27)) = Some (mkDate 2025 12 1)
  ∧ competence_of 28 (Some (mkDate 2025 12 28)) = Some (mkDate 2026 1 1).
Proof.
  split; [|by repeat split].
  unfold assign_competence. rewrite Hdate. eexists. split; [done|].
  cbn [rows]. apply list_fmap_ext. intros i r Hr. f_equal.
  apply competence_of_spec. rewrite Forall_forall in Hvalid.
  apply Hvalid. by apply list_elem_of_lookup_2 in Hr.
Qed.

Lemma assign_competence_cycle_witness :
  has_column sample_transfers "date" = true
  ∧ Forall (fun r => valid_month (date (base r))) (rows sample_transfers)
  ∧ ∃ out,
      assign_competence sample_transfers 4 = Ok out
      ∧ rows out
        = (fun r => Enriched r (spec_competence 4 (date (base r))))
            <$> rows sample_transfers.
Proof.
  assert (Forall (fun r => valid_month (date (base r))) (rows sample_transfers))
    as Hvalid by (repeat constructor; cbn; lia).
  split; [reflexivity|]. split; [exact Hvalid|].
  exact (proj1 (assign_competence_cycle sample_transfers 4 eq_refl Hvalid)).
Defined.

(** ** Aggregator *)

Lemma insert_sorted_Permutation {A : Type} (leb : A → A → bool) (x : A)
  (l : list A) :
  insert_sorted leb x l ≡ₚ x :: l.
Proof.
  induction l as [|y l IH]; cbn [insert_sorted]; [done|].
  destruct (leb x y); [done|]. rewrite IH. apply Permutation_swap.
Qed.

Lemma sort_Permutation {A : Type} (leb : A → A → bool) (l : list A) :
  sort leb l ≡ₚ l.
Proof.
  induction l as [|x l IH]; [done|]. unfold sort in *. cbn [foldr].
  by rewrite insert_sorted_Permutation, IH.
Qed.

Lemma group_keys_NoDup (l : list enriched) : NoDup (group_keys l).
Proof.
  unfold group_keys. rewrite sort_Permutation.
  rewrite <- (list_fmap_id (keep_first id (omap key_of l))).
  apply keep_first_NoDup.
Qed.

Lemma elem_of_group_keys (k : group_key) (l : list enriched) :
  k ∈ group_keys l ↔ ∃ r, r ∈ l ∧ key_of r = Some k.
Proof.
  unfold group_keys. rewrite sort_Permutation, <- list_elem_of_omap. split.
  - apply elem_of_keep_first.
  - intros Hk. destruct (keep_first_covers id k _ Hk) as (y & Hy & Heq).
    cbn in Heq. by subst y.
Qed.






Lemma sum_amounts_sum_over (l : list enriched) :
  sum_amounts l = sum_over amount_or_zero l.
Proof. reflexivity. Qed.










Lemma missing_column_None {A : Type} (df : frame A) (names : list string) :
  Forall (fun name => has_column df name = true) names →
  missing_column df names = None.
Proof.
  unfold missing_column. induction 1 as [|name names Hname _ IH]; [done|].
  cbn [List.find]. by rewrite Hname.
Qed.



(** C8. An empty record-set goes through the aggregator without error: its
    summary is the empty table, and so are the three tables (personal,
    Valonni, investment) that [summary_by_type] makes of that summary. *)
Theorem empty_record_set_summaries (df : frame enriched)
  (Hempty : df_empty df = true) :
  compute_summary df = Ok empty_frame
  ∧ summary_by_type empty_frame = Ok (empty_frame, empty_frame, empty_frame)
  ∧ (summary ← compute_summary df; summary_by_type summary)
    = Ok (empty_frame, empty_frame, empty_frame).
Proof.
  unfold compute_summary. rewrite Hempty. by repeat split.
Qed.

Lemma empty_record_set_summaries_witness :
  df_empty (Frame (columns sample_enriched) ([] : list enriched)) = true
  ∧ compute_summary (Frame (columns sample_enriched) []) = Ok empty_frame
  ∧ summary_by_type empty_frame = Ok (empty_frame, empty_frame, empty_frame)
  ∧ (summary ← compute_summary (Frame (columns sample_enriched) []);
     summary_by_type summary)
    = Ok (empty_frame, empty_frame, empty_frame).
Proof.
  split; [reflexivity|].
  apply (empty_record_set_summaries (Frame (columns sample_enriched) [])).
  reflexivity.
Defined.

(** ** Record Normalizer: amounts *)

Lemma string_app_assoc (a b c : string) : (a +:+ b) +:+ c = a +:+ (b +:+ c).
Proof.
  induction a as [|x a IH]; [done|]. by rewrite !string_app_cons, IH.
Qed.

Lemma string_app_empty (a : string) : a +:+ "" = a.
Proof. induction a as [|x a IH]; [done|]. by rewrite string_app_cons, IH. Qed.

Lemma string_length_app (a b : string) :
  String.length (a +:+ b) = (String.length a + String.length b)%nat.
Proof.
  induction a as [|x a IH]; [done|].
  rewrite string_app_cons. cbn [String.length]. by rewrite IH.
Qed.

Lemma replace_app (old : ascii) (new a b : string) :
  PyStr.replace old new (a +:+ b)
  = PyStr.replace old new a +:+ PyStr.replace old new b.
Proof.
  induction a as [|x a IH]; [done|].
  rewrite string_app_cons. cbn [PyStr.replace]. rewrite IH.
  destruct (Ascii.eqb x old); [by rewrite string_app_assoc | done].
Qed.

(** A digit is none of the characters the parser treats apart. *)
Lemma is_digit_not (c x : ascii) :
  is_digit c = true →
  (N_of_ascii x <? 48)%N = true →
  Ascii.eqb c x = false.
Proof.
  unfold is_digit, digit. intros Hd Hx.
  destruct (Ascii.eqb c x) eqn:Heq; [|done].
  apply Ascii.eqb_eq in Heq as ->.
  apply N.ltb_lt in Hx.
  destruct (48 <=? N_of_ascii x)%N eqn:Hle; [|done].
  apply N.leb_le in Hle. lia.
Qed.

Lemma replace_digits (old : ascii) (new s : string) :
  (N_of_ascii old <? 48)%N = true →
  all_digits s = true →
  PyStr.replace old new s = s.
Proof.
  intros Hold. induction s as [|c s IH]; [done|].
  cbn [all_digits PyStr.replace]. intros [Hc Hs]%andb_true_iff.
  by rewrite (is_digit_not c old Hc Hold), IH.
Qed.

(** Dropping the points of an integer part leaves its digits. *)
Lemma remove_points_digits (a : string) :
  digits_and_points a = true →
  all_digits (PyStr.replace "." "" a) = true.
Proof.
  induction a as [|c a IH]; [done|].
  cbn [digits_and_points PyStr.replace]. intros [Hc Ha]%andb_true_iff.
  destruct (Ascii.eqb c ".") eqn:Hp.
  - rewrite string_app_nil. by apply IH.
  - cbn [all_digits]. rewrite orb_false_r in Hc. by rewrite Hc, IH.
Qed.

(** Reading digits moves the integer read so far, counts them after the
    point when the point has been met, and records that a digit was seen. *)
Lemma decimal_from_digits (s rest : string) (mantissa : Z)
  (fraction : option nat) (any : bool) :
  all_digits s = true →
  decimal_from mantissa fraction any (s +:+ rest)
  = decimal_from (digits_from mantissa s)
      ((fun n => (n + String.length s)%nat) <$> fraction)
      (any || negb (String.eqb s "")) rest.
Proof.
  revert mantissa fraction any. induction s as [|c s IH];
    intros mantissa fraction any.
  - intros _. rewrite string_app_nil, orb_false_r. cbn [String.length digits_from].
    f_equal. destruct fraction as [n|]; cbn; [f_equal; lia | done].
  - cbn [all_digits]. intros [Hc Hs]%andb_true_iff.
    rewrite string_app_cons. cbn [decimal_from digits_from].
    unfold is_digit in Hc. destruct (digit c) as [d|]; [|done].
    rewrite (IH _ _ _ Hs). cbn [default from_option id String.length].
    f_equal.
    + destruct fraction as [n|]; cbn; [f_equal; lia | done].
    + by rewrite orb_true_r.
Qed.

Lemma digits_from_app (a b : string) (acc : Z) :
  digits_from acc (a +:+ b) = digits_from (digits_from acc a) b.
Proof.
  revert acc. induction a as [|c a IH]; intros acc; [done|].
  rewrite string_app_cons. cbn [digits_from]. apply IH.
Qed.

Lemma split_sign_body (sign body : string) :
  is_sign sign →
  match body with
  | EmptyString => True
  | String c _ => (N_of_ascii c <? 48)%N = false ∨ c = "."%char
  end →
  split_sign (sign +:+ body) = (sign_value sign, body).
Proof.
  intros [-> | [-> | ->]] Hbody; [|done..].
  rewrite string_app_nil. destruct body as [|c body]; [done|].
  cbn [split_sign].
  assert (Ascii.eqb c "-" = false ∧ Ascii.eqb c "+" = false) as [-> ->]; [|done].
  destruct Hbody as [Hc | ->]; [|done].
  split; apply Ascii.eqb_neq; intros ->; discriminate.
Qed.

Lemma digit_start (c : ascii) :
  is_digit c = true → (N_of_ascii c <? 48)%N = false.
Proof.
  unfold is_digit, digit. intros Hc. apply N.ltb_ge.
  destruct (48 <=? N_of_ascii c)%N eqn:Hle; [|done]. by apply N.leb_le.
Qed.

Lemma body_start (a rest : string) :
  all_digits a = true →
  match a +:+ String "." rest with
  | EmptyString => True
  | String c _ => (N_of_ascii c <? 48)%N = false ∨ c = "."%char
  end.
Proof.
  destruct a as [|c a]; [by right|]. cbn [all_digits].
  intros [Hc _]%andb_true_iff. rewrite string_app_cons. left.
  by apply digit_start.
Qed.

(** A literal with a decimal point reads as its digits, put after the
    point as many places as digits follow the point. *)
Lemma to_numeric_point (sign a b : string) :
  is_sign sign → all_digits a = true → all_digits b = true →
  a +:+ b ≠ "" →
  to_numeric (sign +:+ a +:+ "." +:+ b)
  = Some (decimal (sign_value sign) (digits_from 0 (a +:+ b)) (String.length b)).
Proof.
  intros Hsign Ha Hb Hany. unfold to_numeric.
  change ("." +:+ b) with (String "." b).
  rewrite (split_sign_body sign _ Hsign (body_start a b Ha)).
  rewrite (decimal_from_digits a _ _ _ _ Ha). cbn [fmap option_fmap option_map].
  cbn [decimal_from]. change (digit ".") with (@None Z).
  change (Ascii.eqb "." ".") with true. cbn match.
  rewrite <- (string_app_empty b) at 1.
  rewrite (decimal_from_digits b _ _ _ _ Hb), <- digits_from_app.
  cbn [fmap option_fmap option_map decimal_from orb].
  assert (negb (String.eqb a "") || negb (String.eqb b "") = true) as ->.
  { destruct a; [|done]. destruct b; [|done]. by destruct Hany. }
  done.
Qed.

(** A literal without point reads as its digits. *)
Lemma to_numeric_digits (sign s : string) :
  is_sign sign → all_digits s = true → s ≠ "" →
  to_numeric (sign +:+ s)
  = Some (decimal (sign_value sign) (digits_from 0 s) 0).
Proof.
  intros Hsign Hs Hne. unfold to_numeric. rewrite split_sign_body; [|done|].
  - rewrite <- (string_app_empty s) at 1.
    rewrite (decimal_from_digits s _ _ _ _ Hs).
    cbn [fmap option_fmap option_map decimal_from orb].
    destruct s; [done|]. done.
  - destruct s as [|c s]; [done|]. cbn [all_digits] in Hs.
    apply andb_true_iff in Hs as [Hc _]. left. by apply digit_start.
Qed.

Lemma clean_amount_sign (sign body : string) :
  is_sign sign → clean_amount (sign +:+ body) = sign +:+ clean_amount body.
Proof. by intros [-> | [-> | ->]]. Qed.

(** A decimal point is deleted with the thousands separators. *)
Lemma clean_amount_point (a b : string) :
  all_digits a = true → all_digits b = true →
  clean_amount (a +:+ "." +:+ b) = a +:+ b.
Proof.
  intros Ha Hb. unfold clean_amount. rewrite !replace_app.
  rewrite (replace_digits "." "" a), (replace_digits "." "" b) by done.
  rewrite (replace_digits "," "." a), (replace_digits "," "." b) by done.
  reflexivity.
Qed.

(** A decimal comma becomes the decimal point. *)
Lemma clean_amount_comma (g b : string) :
  digits_and_points g = true → all_digits b = true →
  clean_amount (g +:+ "," +:+ b) = PyStr.replace "." "" g +:+ "." +:+ b.
Proof.
  intros Hg Hb. unfold clean_amount. rewrite !replace_app.
  rewrite (replace_digits "." "" b), (replace_digits "," "." b) by done.
  rewrite (replace_digits "," "." (PyStr.replace "." "" g))
    by (done || by apply remove_points_digits).
  reflexivity.
Qed.

(** The two passes as one: points go, commas become points. *)
Lemma clean_amount_chars (s : string) :
  list_ascii_of_string (clean_amount s)
  = (fun c => if Ascii.eqb c "," then "."%char else c)
      <$> filter (fun c => c ≠ "."%char) (list_ascii_of_string s).
Proof.
  unfold clean_amount. induction s as [|c s IH]; [done|].
  cbn [PyStr.replace list_ascii_of_string]. rewrite filter_cons.
  destruct (Ascii.eqb c ".") eqn:Hp.
  - apply Ascii.eqb_eq in Hp as ->. rewrite string_app_nil.
    by rewrite decide_False by (by intros ?).
  - apply Ascii.eqb_neq in Hp. rewrite decide_True by done.
    rewrite fmap_cons. cbn [PyStr.replace].
    destruct (Ascii.eqb c ","); cbn [list_ascii_of_string]; by rewrite <- IH.
Qed.

(** Losing the point multiplies by ten for every digit after it. *)
Lemma decimal_scaled (sign mantissa : Z) (fraction : nat) :
  decimal sign mantissa 0
  = (decimal sign mantissa fraction
     * Q2Qc (inject_Z (10 ^ Z.of_nat fraction)))%Qc.
Proof.
  unfold decimal, Qcmult. apply Q2Qc_eq_iff. cbn [this Q2Qc].
  rewrite !Qred_correct. unfold Qeq, Qmult, inject_Z. cbn [Qnum Qden].
  assert (0 < 10 ^ Z.of_nat fraction) as Hpos by (apply Z.pow_pos_nonneg; lia).
  rewrite Pos2Z.inj_mul, (Z2Pos.id _ Hpos).
  change (Z.pos (Z.to_pos (10 ^ Z.of_nat 0))) with 1. ring.
Qed.

(** C9. The amount of a row whose cell is a string is the number read from
    the string after every point was deleted and then every comma turned
    into a point.  So an amount "a.b" written with a decimal point, which by
    itself reads as the digits [a b] with as many places as [b] has digits,
    is read as the integer the digits [a b] write: the value meant, times ten
    for every digit of [b].  An amount "g,b" written with a decimal comma
    ([g] with or without thousands separators) is read as meant.  "10.50"
    becomes 1050, "10,50" becomes 10.5, "1.234,56" becomes 1234.56. *)
Theorem amount_normalization (sign a b : string)
  (Hsign : is_sign sign)
  (Ha : all_digits a = true) (Hb : all_digits b = true)
  (Hany : a +:+ b ≠ "") :
  (∀ to_datetime cols cells s,
     (list_to_map (zip cols cells) : gmap string cell) !! "amount" = Some (Str s) →
     amount (normalize_row to_datetime cols cells)
     = to_numeric (PyStr.replace "," "." (PyStr.replace "." "" s)))
  ∧ (∀ s, list_ascii_of_string (clean_amount s)
          = (fun c => if Ascii.eqb c "," then "."%char else c)
              <$> filter (fun c => c ≠ "."%char) (list_ascii_of_string s))
  ∧ to_numeric (sign +:+ a +:+ "." +:+ b)
    = Some (decimal (sign_value sign) (digits_from 0 (a +:+ b)) (String.length b))
  ∧ to_numeric (clean_amount (sign +:+ a +:+ "." +:+ b))
    = Some (decimal (sign_value sign) (digits_from 0 (a +:+ b)) 0)
  ∧ decimal (sign_value sign) (digits_from 0 (a +:+ b)) 0
    = (decimal (sign_value sign) (digits_from 0 (a +:+ b)) (String.length b)
       * Q2Qc (inject_Z (10 ^ Z.of_nat (String.length b))))%Qc
  ∧ (∀ g, digits_and_points g = true →
          PyStr.replace "." "" g +:+ b ≠ "" →
          to_numeric (clean_amount (sign +:+ g +:+ "," +:+ b))
          = Some (decimal (sign_value sign)
                    (digits_from 0 (PyStr.replace "." "" g +:+ b))
                    (String.length b)))
  ∧ this <$> to_numeric (clean_amount "10.50") = Some (1050 # 1)%Q
  ∧ this <$> to_numeric "10.50" = Some (21 # 2)%Q
  ∧ this <$> to_numeric (clean_amount "10,50") = Some (21 # 2)%Q
  ∧ this <$> to_numeric (clean_amount "1.234,56") = Some (30864 # 25)%Q.
Proof.
  split.
  { intros to_datetime cols cells s Hs. unfold normalize_row. cbn [amount].
    by rewrite Hs. }
  split; [apply clean_amount_chars|].
  split; [by apply to_numeric_point|].
  split.
  { rewrite (clean_amount_sign _ _ Hsign), (clean_amount_point _ _ Ha Hb).
    apply (to_numeric_digits _ _ Hsign); [|done].
    clear Hany. induction a as [|c a IH]; [done|].
    cbn [all_digits] in *. apply andb_true_iff in Ha as [Hc Ha'].
    rewrite string_app_cons. cbn [all_digits]. by rewrite Hc, IH. }
  split; [apply decimal_scaled|].
  split.
  { intros g Hg Hne.
    rewrite (clean_amount_sign _ _ Hsign), (clean_amount_comma _ _ Hg Hb).
    by apply to_numeric_point; [|apply remove_points_digits|..]. }
  by repeat split.
Qed.

Lemma amount_normalization_witness :
  is_sign "-" ∧ all_digits "10" = true ∧ all_digits "50" = true
  ∧ "10" +:+ "50" ≠ ""
  ∧ to_numeric (clean_amount ("-" +:+ "10" +:+ "." +:+ "50"))
    = Some (decimal (sign_value "-") (digits_from 0 ("10" +:+ "50")) 0).
Proof.
  assert (is_sign "-") as Hsign by (right; left; reflexivity).
  assert ("10" +:+ "50" ≠ "") as Hany by discriminate.
  split; [exact Hsign|]. split; [reflexivity|]. split; [reflexivity|].
  split; [exact Hany|].
  exact (proj1 (proj2 (proj2 (proj2
    (amount_normalization "-" "10" "50" Hsign eq_refl eq_refl Hany))))).
Defined.

(** ** Record Normalizer: a statement without amount column *)

(** Without amount column [parse_file] reports the error, which names the
    column, and returns the empty table: no row and no column of the
    statement is kept. *)
Lemma parse_file_without_amount (to_datetime : cell → option Date)
  (name : string) (table : raw_frame) :
  supported name = true →
  "amount" ∉ normalized_columns (raw_columns table) →
  parse_file to_datetime name table
  = ((date_warnings table ++ [Error "Coluna 'amount' não encontrada."])%list,
     empty_frame).
Proof.
  intros Hname Hamount. unfold parse_file, supported, date_warnings in *.
  rewrite Hname. by rewrite (bool_decide_eq_false_2 _ Hamount).
Qed.

(** The block of [display_dashboard] goes on with the empty table: the
    deduplicator and the classifier accept it, and the disambiguator fails on
    the description column, which the empty table does not have. *)
Lemma load_without_amount (to_datetime : cell → option Date)
  (name : string) (table : raw_frame) (cycle_start_day : Z) :
  supported name = true →
  "amount" ∉ normalized_columns (raw_columns table) →
  load to_datetime name table cycle_start_day
  = ((date_warnings table ++ [Error "Coluna 'amount' não encontrada."])%list,
     KeyError "description").
Proof.
  intros Hname Hamount. unfold load.
  by rewrite (parse_file_without_amount _ _ _ Hname Hamount).
Qed.

(** C6, at a statement with a date and a description column and no amount
    column.  [parse_file] reports the missing column and returns the empty
    table; the pipeline does not stop there: [remove_duplicates] and
    [categorize_transactions] run on the empty table, and the run ends in
    [detect_internal_transfers] with the [KeyError] of the description
    column. *)
Theorem load_statement_without_amount (to_datetime : cell → option Date)
  (cycle_start_day : Z) :
  parse_file to_datetime "extrato.csv" statement_without_amount
  = ([Error "Coluna 'amount' não encontrada."], empty_frame)
  ∧ remove_duplicates empty_frame = Ok empty_frame
  ∧ categorize_transactions empty_frame load_category_rules
    = Frame classification_columns []
  ∧ detect_internal_transfers (Frame classification_columns [])
    = KeyError "description"
  ∧ load to_datetime "extrato.csv" statement_without_amount cycle_start_day
    = ([Error "Coluna 'amount' não encontrada."], KeyError "description").
Proof.
  assert (supported "extrato.csv" = true) as Hname by reflexivity.
  assert ("amount" ∉ normalized_columns (raw_columns statement_without_amount))
    as Hamount by (apply (proj1 (bool_decide_eq_false _)); reflexivity).
  split.
  { by rewrite (parse_file_without_amount _ _ _ Hname Hamount). }
  split; [reflexivity|]. split; [reflexivity|]. split; [reflexivity|].
  by rewrite (load_without_amount _ _ _ _ Hname Hamount).
Qed.

(** * Further properties *)

(** ** Deduplicator: the composite key, and running it twice *)

Global Instance composite_key_inj :
  Inj (=) (=) (fun k : option Date * option cell * option Qc =>
                 [DateValue k.1.1; TextValue k.1.2; AmountValue k.2]).
Proof. intros [[d1 c1] a1] [[d2 c2] a2] Heq. cbn in Heq. by injection Heq as -> -> ->. Qed.

Lemma drop_duplicates_composite (df : frame txn) :
  Forall (fun name => has_column df name = true)
         ["date"; "description"; "amount"] →
  drop_duplicates ["date"; "description"; "amount"] df
  = Ok (Frame (columns df) (keep_first composite_key (rows df))).
Proof.
  intros Hcols. unfold drop_duplicates. destruct (df_empty df) eqn:Hempty.
  - assert (rows df = []) as Hrows.
    { apply (df_empty_with_column df "date"); [|done].
      apply has_column_true. by apply Forall_cons in Hcols as [? _]. }
    destruct df as [cols rws]. cbn [rows columns] in *. by subst rws.
  - rewrite (missing_column_None _ _ Hcols). do 2 f_equal.
    rewrite <- (keep_first_inj
      (fun k : option Date * option cell * option Qc =>
         [DateValue k.1.1; TextValue k.1.2; AmountValue k.2]) composite_key).
    reflexivity.
Qed.



Lemma drop_duplicates_shape (subset : list string) (df out : frame txn) :
  drop_duplicates subset df = Ok out →
  columns out = columns df ∧ rows out `sublist_of` rows df.
Proof.
  unfold drop_duplicates. destruct (df_empty df).
  - by intros [= <-].
  - destruct (missing_column df subset); [done|]. intros [= <-].
    split; [done|]. apply keep_first_sublist.
Qed.

Lemma remove_duplicates_cases (df : frame txn) :
  ∃ subset, ∀ df', columns df' = columns df →
    remove_duplicates df' = drop_duplicates subset df'.
Proof.
  unfold remove_duplicates, has_column.
  destruct (bool_decide ("operation_id" ∈ columns df)) eqn:Hop.
  { eexists. intros df' ->. by rewrite Hop. }
  destruct (bool_decide ("activity_id" ∈ columns df)) eqn:Hact.
  { eexists. intros df' ->. by rewrite Hop, Hact. }
  eexists. intros df' ->. by rewrite Hop, Hact.
Qed.

Lemma remove_duplicates_shape (df out : frame txn) :
  remove_duplicates df = Ok out →
  columns out = columns df ∧ rows out `sublist_of` rows df.
Proof.
  intros Hout. destruct (remove_duplicates_cases df) as [subset Hcase].
  rewrite (Hcase df eq_refl) in Hout.
  by apply drop_duplicates_shape in Hout.
Qed.

(** X2. Whatever column decides, the deduplicator only removes rows: when
    it succeeds the columns are those it was given, and the rows are rows
    it was given, in the order they had, so never more than before. *)
Theorem remove_duplicates_only_removes (df out : frame txn)
  (Hout : remove_duplicates df = Ok out) :
  columns out = columns df
  ∧ rows out `sublist_of` rows df
  ∧ (List.length (rows out) ≤ List.length (rows df))%nat.
Proof.
  destruct (remove_duplicates_shape df out Hout) as [Hc Hs].
  split; [done|]. split; [done|]. by apply sublist_length.
Qed.

Lemma remove_duplicates_only_removes_witness :
  remove_duplicates sample_ids
  = Ok (Frame (columns sample_ids) (take 1 (rows sample_ids)))
  ∧ columns (Frame (columns sample_ids) (take 1 (rows sample_ids)))
    = columns sample_ids
  ∧ rows (Frame (columns sample_ids) (take 1 (rows sample_ids)))
    `sublist_of` rows sample_ids
  ∧ (List.length (rows (Frame (columns sample_ids) (take 1 (rows sample_ids))))
     ≤ List.length (rows sample_ids))%nat.
Proof.
  assert (remove_duplicates sample_ids
          = Ok (Frame (columns sample_ids) (take 1 (rows sample_ids)))) as Hout
    by (vm_compute; reflexivity).
  split; [exact Hout|].
  exact (remove_duplicates_only_removes sample_ids _ Hout).
Defined.

(** Rows whose keys are all different, and not seen before, are all kept. *)
Lemma keep_first_from_NoDup {A K : Type} `{EqDecision K} (key : A → K)
  (seen : list K) (l : list A) :
  NoDup (key <$> l) →
  (∀ x, x ∈ l → key x ∉ seen) →
  keep_first_from key seen l = l.
Proof.
  revert seen. induction l as [|x l IH]; intros seen Hnd Hseen; [done|].
  rewrite keep_first_from_cons. rewrite fmap_cons in Hnd.
  apply NoDup_cons in Hnd as [Hx Hnd].
  rewrite decide_False by (apply Hseen, list_elem_of_here).
  f_equal. apply IH; [done|]. intros y Hy [Heq|Hin]%elem_of_cons.
  - apply Hx. rewrite <- Heq. by apply list_elem_of_fmap_2.
  - apply (Hseen y); [by apply elem_of_cons; right | done].
Qed.

Lemma keep_first_idemp {A K : Type} `{EqDecision K} (key : A → K)
  (l : list A) :
  keep_first key (keep_first key l) = keep_first key l.
Proof.
  apply (keep_first_from_NoDup key []).
  - apply keep_first_NoDup.
  - intros x _. apply not_elem_of_nil.
Qed.

Lemma drop_duplicates_idemp (subset : list string) (df out : frame txn) :
  drop_duplicates subset df = Ok out → drop_duplicates subset out = Ok out.
Proof.
  unfold drop_duplicates. destruct (df_empty df) eqn:Hempty.
  - intros [= <-]. by rewrite Hempty.
  - destruct (missing_column df subset) eqn:Hmiss; [done|]. intros [= <-].
    unfold missing_column, has_column in *. cbn [columns rows].
    rewrite Hmiss, keep_first_idemp. by destruct (df_empty (Frame _ _)).
Qed.

(** X3. Running the deduplicator on its own result changes nothing: the
    result of a second run is the result of the first, also when the first
    fails. *)
Theorem remove_duplicates_twice (df : frame txn) :
  (remove_duplicates df ≫= remove_duplicates) = remove_duplicates df.
Proof.
  destruct (remove_duplicates_cases df) as [subset Hcase].
  rewrite (Hcase df eq_refl).
  destruct (drop_duplicates subset df) as [out|key] eqn:Hout; [|done].
  cbn. rewrite (Hcase out) by (by apply drop_duplicates_shape in Hout as [? _]).
  apply (drop_duplicates_idemp _ _ _ Hout).
Qed.

(** ** Rule-Based Classifier: order of the rules, case of the letters *)

(** X4. A row gets the classification of the first rule, in the order of
    the list, one of whose keywords is found in its matching text: when a
    rule matches and no rule before it does, the row is returned with the
    category, the subcategory (empty when the rule has none) and the four
    flags of that rule, whatever the rules after it are. *)
Theorem categorize_first_rule (df : frame txn)
  (before after : list CategoryRule) (rule : CategoryRule)
  (i : nat) (r : txn)
  (Hrow : rows df !! i = Some r)
  (Hmatch : rule_matches (desc r) rule = true)
  (Hbefore : Forall (fun r0 => rule_matches (desc r) r0 = false) before) :
  rows (categorize_transactions df (before ++ rule :: after)) !! i
  = Some (Classified r
            {| category := CategoryRule.category rule;
               subcategory := default "" (CategoryRule.subcategory rule);
               is_fixed := CategoryRule.is_fixed rule;
               is_extraordinary := CategoryRule.is_extraordinary rule;
               is_investment := CategoryRule.is_investment rule;
               is_valonni := CategoryRule.is_valonni rule |}).
Proof.
  cbn [categorize_transactions rows]. rewrite list_lookup_fmap, Hrow. cbn.
  do 2 f_equal. unfold classify.
  assert (first_match (desc r) (before ++ rule :: after) = Some rule) as ->;
    [|done].
  apply first_match_Some. by exists before, after.
Qed.

Lemma categorize_first_rule_witness :
  rows sample_yasmin !! 0%nat
  = Some (Txn (Some (mkDate 2025 11 3)) (Some (Q2Qc (-800)))
              {[ "description" := Str "Pix Yasmin Investimentos" ]})
  ∧ rows (categorize_transactions sample_yasmin
            (take 3 load_category_rules
             ++ CategoryRule.mk "Carro" (Some "Compra/Manutenção")
                  ["Ludi Auto Pecas"; "Yasmin"; "Diego"] false true false false
             :: drop 4 load_category_rules)) !! 0%nat
    = Some (Classified
              (Txn (Some (mkDate 2025 11 3)) (Some (Q2Qc (-800)))
                   {[ "description" := Str "Pix Yasmin Investimentos" ]})
              {| category := "Carro"; subcategory := "Compra/Manutenção";
                 is_fixed := false; is_extraordinary := true;
                 is_investment := false; is_valonni := false |}).
Proof.
  split; [reflexivity|].
  refine (categorize_first_rule sample_yasmin (take 3 load_category_rules)
            (drop 4 load_category_rules)
            (CategoryRule.mk "Carro" (Some "Compra/Manutenção")
               ["Ludi Auto Pecas"; "Yasmin"; "Diego"] false true false false)
            0 _ _ _ _).
  - reflexivity.
  - vm_compute. reflexivity.
  - repeat (first [apply List.Forall_nil | apply List.Forall_cons]);
      vm_compute; reflexivity.
Defined.

Lemma lower_from_idemp (after_c3 : bool) (s : string) :
  PyStr.lower_from after_c3 (PyStr.lower_from after_c3 s)
  = PyStr.lower_from after_c3 s.
Proof.
  revert after_c3. induction s as [|c s IH]; intros after_c3; [done|].
  pose proof (N_ascii_bounded c) as Hc.
  cbn [PyStr.lower_from]. cbv zeta.
  destruct after_c3.
  - destruct ((128 <=? N_of_ascii c)%N && (N_of_ascii c <=? 158)%N
              && negb (N_of_ascii c =? 151)%N) eqn:Hcond.
    + cbn [PyStr.lower_from]. cbv zeta.
      rewrite N_ascii_embedding by
        (apply andb_true_iff in Hcond as [[? ?%N.leb_le]%andb_true_iff _]; lia).
      apply andb_true_iff in Hcond as [[Hlo%N.leb_le Hhi%N.leb_le]%andb_true_iff _].
      assert ((N_of_ascii c + 32 <=? 158)%N = false) as ->
        by (apply N.leb_gt; lia).
      rewrite andb_false_r. cbn [andb]. by rewrite IH.
    + cbn [PyStr.lower_from]. cbv zeta. by rewrite Hcond, IH.
  - destruct ((65 <=? N_of_ascii c)%N && (N_of_ascii c <=? 90)%N) eqn:Hcond.
    + cbn [PyStr.lower_from]. cbv zeta.
      apply andb_true_iff in Hcond as [Hlo%N.leb_le Hhi%N.leb_le].
      rewrite N_ascii_embedding by lia.
      assert ((N_of_ascii c + 32 <=? 90)%N = false) as ->
        by (apply N.leb_gt; lia).
      rewrite andb_false_r.
      assert ((N_of_ascii c + 32 =? 195)%N = false) as ->
        by (apply N.eqb_neq; lia).
      assert ((N_of_ascii c =? 195)%N = false) as ->
        by (apply N.eqb_neq; lia).
      by rewrite IH.
    + cbn [PyStr.lower_from]. cbv zeta. by rewrite Hcond, IH.
Qed.

Lemma lower_idemp (s : string) : PyStr.lower (PyStr.lower s) = PyStr.lower s.
Proof. apply lower_from_idemp. Qed.

Lemma lower_empty (s : string) : String.eqb (PyStr.lower s) "" = String.eqb s "".
Proof. by destruct s. Qed.

Lemma rule_matches_lower_keywords (text : string) (rule : CategoryRule) :
  rule_matches text (lower_keywords rule) = rule_matches text rule.
Proof.
  unfold rule_matches, lower_keywords. cbn [CategoryRule.keywords].
  induction (CategoryRule.keywords rule) as [|k ks IH]; [done|].
  rewrite fmap_cons. cbn [existsb]. by rewrite lower_idemp, IH.
Qed.

Lemma classify_lower_keywords (rules : list CategoryRule) (text : string) :
  classify (lower_keywords <$> rules) text = classify rules text.
Proof.
  unfold classify.
  assert (first_match text (lower_keywords <$> rules)
          = lower_keywords <$> first_match text rules) as ->.
  { induction rules as [|rule rules IH]; [done|].
    rewrite fmap_cons. cbn [first_match].
    rewrite rule_matches_lower_keywords, IH.
    by destruct (rule_matches text rule). }
  by destruct (first_match text rules).
Qed.

Lemma desc_lower_texts (r : txn) : desc (lower_texts r) = desc r.
Proof.
  unfold desc, row_get, lower_texts, py_or. cbn [fields].
  rewrite !lookup_fmap.
  destruct (fields r !! "title") as [[|t]|];
    destruct (fields r !! "description") as [[|d]|];
    cbn [fmap option_fmap option_map lower_cell truthy py_str];
    repeat (rewrite ?lower_empty;
            match goal with
            | |- context [String.eqb ?s ""] => destruct (String.eqb s "")
            end;
            cbn [negb truthy py_str]);
    by rewrite ?lower_idemp.
Qed.

(** X5. The classifier is blind to the case of the letters, on both sides
    (letters of Latin-1): writing every keyword of every rule and every text
    of every row in lower case changes the classification of no row. *)
Theorem categorize_ignores_case (df : frame txn) (rules : list CategoryRule) :
  cls <$> rows (categorize_transactions
                  (Frame (columns df) (lower_texts <$> rows df))
                  (lower_keywords <$> rules))
  = cls <$> rows (categorize_transactions df rules).
Proof.
  cbn [categorize_transactions rows]. rewrite <- !list_fmap_compose.
  apply list_fmap_ext. intros i r _. cbn.
  by rewrite desc_lower_texts, classify_lower_keywords.
Qed.

(** ** Aggregator: the groups and their order *)

Lemma summary_key_summarize (l : list enriched) (k : group_key) :
  summary_key (summarize l k) = k.
Proof. by destruct k as [[[[[c s] f] e] i] v]. Qed.

Lemma total_amount_summarize (l : list enriched) (k : group_key) :
  total_amount (summarize l k) = sum_amounts (group_rows k l).
Proof. by destruct k as [[[[[c s] f] e] i] v]. Qed.

Lemma summary_keys (l : list enriched) :
  summary_key <$> (summarize l <$> group_keys l) = group_keys l.
Proof.
  rewrite <- list_fmap_compose. rewrite <- (list_fmap_id (group_keys l)) at 2.
  apply list_fmap_ext. intros i k _. apply summary_key_summarize.
Qed.

Lemma compute_summary_rows (df : frame enriched) :
  Forall (fun name => has_column df name = true)
         (group_columns ++ ["amount"])%list →
  compute_summary df
  = Ok (if df_empty df then empty_frame
        else Frame (group_columns ++ ["total_amount"])%list
               (summarize (rows df) <$> group_keys (rows df))).
Proof.
  intros Hcols. unfold compute_summary. destruct (df_empty df); [done|].
  by rewrite (missing_column_None _ _ Hcols).
Qed.

Lemma compute_summary_rows_eq (df : frame enriched) (out : frame summary_row) :
  Forall (fun name => has_column df name = true)
         (group_columns ++ ["amount"])%list →
  compute_summary df = Ok out →
  rows out = summarize (rows df) <$> group_keys (rows df).
Proof.
  intros Hcols. rewrite (compute_summary_rows df Hcols). intros [= <-].
  destruct (df_empty df) eqn:Hempty; [|done].
  assert (rows df = []) as ->; [|done].
  apply (df_empty_with_column df "amount"); [|done].
  apply has_column_true. rewrite Forall_app, Forall_singleton in Hcols. tauto.
Qed.

(** X6. The summary has one row for every combination of competence,
    category and flags that occurs among the rows with a competence, and no
    other row: no two of its rows have the same key, a key is in the summary
    exactly when some row of the input has it, and the [total_amount] of a
    row is the sum of the amounts (NaN counting for nothing) of the input
    rows with its key. *)
Theorem compute_summary_groups (df : frame enriched)
  (Hcolumns : Forall (fun name => has_column df name = true)
                (group_columns ++ ["amount"])%list) :
  ∃ out,
    compute_summary df = Ok out
    ∧ NoDup (summary_key <$> rows out)
    ∧ (∀ k, k ∈ summary_key <$> rows out
            ↔ ∃ r, r ∈ rows df ∧ key_of r = Some k)
    ∧ (∀ s, s ∈ rows out →
            total_amount s
            = sum_amounts (filter (fun r => key_of r = Some (summary_key s))
                                  (rows df))).
Proof.
  destruct (compute_summary df) as [out|key] eqn:Hout.
  2: { rewrite (compute_summary_rows df Hcolumns) in Hout. discriminate. }
  pose proof (compute_summary_rows_eq df out Hcolumns Hout) as Hrows.
  exists out. split; [done|]. rewrite Hrows, summary_keys.
  split; [apply group_keys_NoDup|].
  split; [intros k; apply elem_of_group_keys|].
  intros s (k & -> & _)%list_elem_of_fmap.
  by rewrite summary_key_summarize, total_amount_summarize.
Qed.

Lemma compute_summary_groups_witness :
  Forall (fun name => has_column sample_enriched name = true)
         (group_columns ++ ["amount"])%list
  ∧ ∃ out,
      compute_summary sample_enriched = Ok out
      ∧ NoDup (summary_key <$> rows out).
Proof.
  assert (Forall (fun name => has_column sample_enriched name = true)
                 (group_columns ++ ["amount"])%list) as Hcolumns
    by (repeat (first [apply List.Forall_nil | apply List.Forall_cons]);
        reflexivity).
  split; [exact Hcolumns|].
  destruct (compute_summary_groups sample_enriched Hcolumns)
    as (out & Hout & Hnd & _).
  exists out. split; [exact Hout | exact Hnd].
Defined.

Lemma lex_opp (c1 c2 : comparison) :
  CompOpp (lex c1 c2) = lex (CompOpp c1) (CompOpp c2).
Proof. by destruct c1. Qed.

Lemma bool_compare_antisym (a b : bool) :
  Bool.compare a b = CompOpp (Bool.compare b a).
Proof. by destruct a, b. Qed.

Lemma Date_compare_antisym (a b : Date) :
  Date_compare a b = CompOpp (Date_compare b a).
Proof.
  unfold Date_compare. rewrite !lex_opp.
  by rewrite <- !Z.compare_antisym.
Qed.

Lemma key_compare_antisym (a b : group_key) :
  key_compare a b = CompOpp (key_compare b a).
Proof.
  destruct a as [[[[[c1 s1] f1] e1] i1] v1].
  destruct b as [[[[[c2 s2] f2] e2] i2] v2].
  unfold key_compare. rewrite !lex_opp.
  rewrite <- Date_compare_antisym, <- String.compare_antisym.
  by rewrite <- !bool_compare_antisym.
Qed.

Lemma key_leb_total (a b : group_key) :
  key_leb a b = false → key_leb b a = true.
Proof.
  unfold key_leb. rewrite (key_compare_antisym b a).
  by destruct (key_compare a b).
Qed.

Lemma insert_sorted_Sorted {A : Type} (leb : A → A → bool) (x : A)
  (l : list A) :
  (∀ a b, leb a b = false → leb b a = true) →
  Sorted (fun a b => leb a b = true) l →
  Sorted (fun a b => leb a b = true) (insert_sorted leb x l).
Proof.
  intros Htotal. induction 1 as [|y l Hl IH Hhd]; cbn [insert_sorted].
  - by repeat constructor.
  - destruct (leb x y) eqn:Hxy.
    + by repeat constructor.
    + constructor; [done|].
      destruct l as [|z l]; cbn [insert_sorted] in *.
      * constructor. by apply Htotal.
      * destruct (leb x z); constructor; [by apply Htotal|].
        by apply HdRel_inv in Hhd.
Qed.

Lemma sort_Sorted {A : Type} (leb : A → A → bool) (l : list A) :
  (∀ a b, leb a b = false → leb b a = true) →
  Sorted (fun a b => leb a b = true) (sort leb l).
Proof.
  intros Htotal. induction l as [|x l IH]; [constructor|].
  unfold sort in *. cbn [foldr]. by apply insert_sorted_Sorted.
Qed.

Lemma Sorted_weaken {A : Type} (R R' : A → A → Prop) (l : list A) :
  (∀ a b, R a b → R' a b) → Sorted R l → Sorted R' l.
Proof.
  intros HR. induction 1 as [|x l Hl IH Hhd]; constructor; [done|].
  destruct Hhd; constructor. by apply HR.
Qed.

(** X7. The rows of the summary stand in increasing order of their key:
    by competence, then category (in the order of the code points), then
    the four flags, [False] before [True]. *)
Theorem compute_summary_sorted (df : frame enriched)
  (Hcolumns : Forall (fun name => has_column df name = true)
                (group_columns ++ ["amount"])%list) :
  ∃ out,
    compute_summary df = Ok out
    ∧ Sorted (fun a b => key_compare a b ≠ Gt) (summary_key <$> rows out).
Proof.
  destruct (compute_summary df) as [out|key] eqn:Hout.
  2: { rewrite (compute_summary_rows df Hcolumns) in Hout. discriminate. }
  pose proof (compute_summary_rows_eq df out Hcolumns Hout) as Hrows.
  exists out. split; [done|]. rewrite Hrows, summary_keys.
  eapply Sorted_weaken; [|apply (sort_Sorted key_leb), key_leb_total].
  intros a b. unfold key_leb. by destruct (key_compare a b).
Qed.

Lemma compute_summary_sorted_witness :
  Forall (fun name => has_column sample_enriched name = true)
         (group_columns ++ ["amount"])%list
  ∧ ∃ out,
      compute_summary sample_enriched = Ok out
      ∧ Sorted (fun a b => key_compare a b ≠ Gt) (summary_key <$> rows out).
Proof.
  assert (Forall (fun name => has_column sample_enriched name = true)
                 (group_columns ++ ["amount"])%list) as Hcolumns
    by (repeat (first [apply List.Forall_nil | apply List.Forall_cons]);
        reflexivity).
  split; [exact Hcolumns|].
  exact (compute_summary_sorted sample_enriched Hcolumns).
Defined.

(** ** Aggregator: the three tables of [summary_by_type] *)

Lemma by_type_Permutation (l : list summary_row) :
  (filter (fun r => negb (s_is_valonni r) && negb (s_is_investment r) = true) l
   ++ filter (fun r => s_is_valonni r = true) l
   ++ filter (fun r => s_is_investment r = true) l)%list
  ≡ₚ (l ++ filter both_flags l)%list.
Proof.
  induction l as [|x l IH]; [done|].
  rewrite !filter_cons.
  destruct (decide (negb (s_is_valonni x) && negb (s_is_investment x) = true))
    as [Hp|Hp];
    destruct (decide (s_is_valonni x = true)) as [Hv|Hv];
    destruct (decide (s_is_investment x = true)) as [Hi|Hi];
    destruct (decide (both_flags x)) as [Hb|Hb];
    unfold both_flags in Hb;
    try (exfalso; destruct (s_is_valonni x), (s_is_investment x);
         cbn in *; intuition congruence).
  all: cbn [app]; rewrite <- ?Permutation_middle; cbn [app];
    first [by f_equiv | by do 2 f_equiv].
Qed.

Lemma sum_total_amount_app (l1 l2 : list summary_row) :
  sum_total_amount (l1 ++ l2)
  = (sum_total_amount l1 + sum_total_amount l2)%Qc.
Proof.
  induction l1 as [|x l1 IH]; cbn [app sum_total_amount foldr] in *.
  - symmetry. apply Qcplus_0_l.
  - unfold sum_total_amount in *. rewrite IH. ring.
Qed.

Lemma sum_total_amount_Permutation (l1 l2 : list summary_row) :
  l1 ≡ₚ l2 → sum_total_amount l1 = sum_total_amount l2.
Proof.
  unfold sum_total_amount.
  induction 1 as [|x l1 l2 _ IH|x y l|l1 l2 l3 _ IH1 _ IH2]; cbn [foldr].
  - done.
  - by rewrite IH.
  - ring.
  - by rewrite IH1.
Qed.

(** X8. The three tables are made of rows of the summary, in their order
    and with its columns: a row without the two purpose flags is in the
    personal table only, a row with [is_valonni] in the Valonni table, a row
    with [is_investment] in the investment table, and so a row with both
    flags in two tables.  Put together the tables hold the rows of the
    summary once, and the rows with both flags a second time; when no row has
    both flags they divide the summary, and their totals add up to its
    total. *)
Theorem summary_by_type_tables (df : frame summary_row)
  (Hcolumns : Forall (fun name => has_column df name = true)
                ["is_valonni"; "is_investment"]) :
  ∃ pessoal valonni invest,
    summary_by_type df = Ok (pessoal, valonni, invest)
    ∧ rows pessoal
      = filter (fun r => negb (s_is_valonni r) && negb (s_is_investment r) = true)
               (rows df)
    ∧ rows valonni = filter (fun r => s_is_valonni r = true) (rows df)
    ∧ rows invest = filter (fun r => s_is_investment r = true) (rows df)
    ∧ (rows pessoal ++ rows valonni ++ rows invest)%list
      ≡ₚ (rows df ++ filter both_flags (rows df))%list
    ∧ (Forall (fun r => ¬ both_flags r) (rows df) →
       (rows pessoal ++ rows valonni ++ rows invest)%list ≡ₚ rows df
       ∧ (sum_total_amount (rows pessoal) + sum_total_amount (rows valonni)
          + sum_total_amount (rows invest))%Qc
         = sum_total_amount (rows df)).
Proof.
  assert (∀ p v i : frame summary_row,
    rows p = filter (fun r => negb (s_is_valonni r) && negb (s_is_investment r) = true)
               (rows df) →
    rows v = filter (fun r => s_is_valonni r = true) (rows df) →
    rows i = filter (fun r => s_is_investment r = true) (rows df) →
    (rows p ++ rows v ++ rows i)%list
      ≡ₚ (rows df ++ filter both_flags (rows df))%list
    ∧ (Forall (fun r => ¬ both_flags r) (rows df) →
       (rows p ++ rows v ++ rows i)%list ≡ₚ rows df
       ∧ (sum_total_amount (rows p) + sum_total_amount (rows v)
          + sum_total_amount (rows i))%Qc
         = sum_total_amount (rows df))) as Hmain.
  { intros p v i -> -> ->. split; [apply by_type_Permutation|].
    intros Hnone.
    assert (filter both_flags (rows df) = []) as Hboth.
    { apply elem_of_nil_inv. intros r [Hb Hr]%list_elem_of_filter.
      rewrite Forall_forall in Hnone. by apply (Hnone r). }
    pose proof (by_type_Permutation (rows df)) as Hperm.
    rewrite Hboth, app_nil_r in Hperm. split; [done|].
    rewrite <- (sum_total_amount_Permutation _ _ Hperm).
    rewrite !sum_total_amount_app. ring. }
  unfold summary_by_type. destruct (df_empty df) eqn:Hempty.
  - assert (rows df = []) as Hrows.
    { apply (df_empty_with_column df "is_valonni"); [|done].
      apply has_column_true. by apply Forall_cons in Hcolumns as [? _]. }
    exists empty_frame, empty_frame, empty_frame. split; [done|].
    rewrite Hrows. do 3 (split; [done|]).
    specialize (Hmain empty_frame empty_frame empty_frame).
    rewrite Hrows in Hmain. by apply Hmain.
  - rewrite (missing_column_None _ _ Hcolumns). do 3 eexists.
    split; [done|]. cbn [rows]. do 3 (split; [done|]).
    by apply (Hmain (Frame (columns df) _) (Frame (columns df) _)
                   (Frame (columns df) _)).
Qed.

Lemma summary_by_type_tables_witness :
  Forall (fun name => has_column sample_summary name = true)
         ["is_valonni"; "is_investment"]
  ∧ ∃ pessoal valonni invest,
      summary_by_type sample_summary = Ok (pessoal, valonni, invest)
      ∧ rows valonni
        = filter (fun r => s_is_valonni r = true) (rows sample_summary).
Proof.
  assert (Forall (fun name => has_column sample_summary name = true)
                 ["is_valonni"; "is_investment"]) as Hcolumns
    by (repeat (first [apply List.Forall_nil | apply List.Forall_cons]);
        reflexivity).
  split; [exact Hcolumns|].
  destruct (summary_by_type_tables sample_summary Hcolumns)
    as (p & v & i & Hout & _ & Hv & _).
  exists p, v, i. split; [exact Hout | exact Hv].
Defined.

(** ** The pipeline as a whole *)

Lemma detect_internal_transfers_rows (df : frame classified) :
  has_column df "category" = true →
  has_column df "description" = true →
  detect_internal_transfers df = Ok (Frame (columns df) (reclassify <$> rows df)).
Proof.
  intros Hc Hd. unfold detect_internal_transfers. by rewrite Hc, Hd.
Qed.

Lemma has_column_categorize (df : frame txn) (rules : list CategoryRule)
  (name : string) :
  has_column (categorize_transactions df rules) name
  = bool_decide (name ∈ classification_columns) || has_column df name.
Proof.
  unfold has_column. apply eq_true_iff_eq.
  rewrite orb_true_iff, !bool_decide_eq_true.
  apply elem_of_categorize_columns.
Qed.

Lemma base_reclassify (r : classified) : base (reclassify r) = base r.
Proof. unfold reclassify. by destruct (_ && _). Qed.

(** The deduplicator succeeds on a frame that has the three columns of the
    composite key. *)
Lemma remove_duplicates_ok (df : frame txn) :
  Forall (fun name => has_column df name = true)
         ["date"; "description"; "amount"] →
  ∃ out, remove_duplicates df = Ok out ∧ columns out = columns df.
Proof.
  intros Hcols. unfold remove_duplicates.
  destruct (has_column df "operation_id") eqn:Hop.
  { eexists. by rewrite drop_duplicates_text by (by apply has_column_true || done). }
  destruct (has_column df "activity_id") eqn:Hact.
  { eexists. by rewrite drop_duplicates_text by (by apply has_column_true || done). }
  eexists. by rewrite drop_duplicates_composite.
Qed.

(** Without description column the run fails, in the deduplicator or in the
    disambiguator. *)
Lemma stages_without_description (df : frame txn) (cycle_start_day : Z) :
  has_column df "date" = true →
  has_column df "description" = false →
  (raw_df ← remove_duplicates df;
   normalized_df ← detect_internal_transfers
                     (categorize_transactions raw_df load_category_rules);
   assign_competence normalized_df cycle_start_day)
  = KeyError "description".
Proof.
  intros Hdate Hdesc.
  destruct (remove_duplicates df) as [out|key] eqn:Hout.
  - pose proof (remove_duplicates_shape df out Hout) as [Hcols _].
    cbn. unfold detect_internal_transfers.
    rewrite !has_column_categorize. cbn [orb negb].
    assert (has_column out "description" = false) as ->
      by (unfold has_column in *; by rewrite Hcols).
    done.
  - cbn. f_equal. unfold remove_duplicates in Hout.
    assert (∀ name, name ∈ columns df → name ≠ "date" → name ≠ "amount" →
                    drop_duplicates [name] df ≠ KeyError key) as Htext.
    { intros name ? ? ?. by rewrite drop_duplicates_text. }
    destruct (has_column df "operation_id") eqn:Hop.
    { exfalso. by apply (Htext "operation_id"); [apply has_column_true|..]. }
    destruct (has_column df "activity_id") eqn:Hact.
    { exfalso. by apply (Htext "activity_id"); [apply has_column_true|..]. }
    unfold drop_duplicates in Hout. destruct (df_empty df); [done|].
    unfold missing_column in Hout. cbn [List.find] in Hout.
    rewrite Hdate, Hdesc in Hout. cbn in Hout. by injection Hout as <-.
Qed.

Lemma parse_file_ok (to_datetime : cell → option Date) (name : string)
  (table : raw_frame) :
  supported name = true →
  "amount" ∈ normalized_columns (raw_columns table) →
  parse_file to_datetime name table
  = (date_warnings table,
     Frame (set_column "date" (normalized_columns (raw_columns table)))
           (normalize_row to_datetime (normalized_columns (raw_columns table))
              <$> raw_rows table)).
Proof.
  intros Hname Hamount. unfold parse_file, supported, date_warnings in *.
  rewrite Hname. by rewrite (bool_decide_eq_true_2 _ Hamount).
Qed.

Lemma parse_file_unsupported (to_datetime : cell → option Date) (name : string)
  (table : raw_frame) :
  supported name = false →
  parse_file to_datetime name table
  = ([Error "Formato de arquivo não suportado. Use CSV ou Excel."], empty_frame).
Proof. intros Hname. unfold parse_file, supported in *. by rewrite Hname. Qed.

Local Ltac in_list :=
  repeat first [apply list_elem_of_here | apply list_elem_of_further].

(** With a supported name, an amount and a description column every stage
    succeeds. *)
Lemma load_with_columns (to_datetime : cell → option Date) (name : string)
  (table : raw_frame) (cycle_start_day : Z) :
  supported name = true →
  "amount" ∈ normalized_columns (raw_columns table) →
  "description" ∈ normalized_columns (raw_columns table) →
  ∃ raw_df kept df,
    parse_file to_datetime name table = (date_warnings table, raw_df)
    ∧ remove_duplicates raw_df = Ok kept
    ∧ load to_datetime name table cycle_start_day
      = (date_warnings table, Ok df)
    ∧ rows df = enrich cycle_start_day <$> rows kept
    ∧ Forall (fun c => has_column df c = true)
             (group_columns ++ ["amount"; "date"; "description"])%list.
Proof.
  intros Hname Hamount Hdesc.
  unfold load. rewrite (parse_file_ok _ _ _ Hname Hamount).
  set (cols := normalized_columns (raw_columns table)) in *.
  set (raw_df := Frame (set_column "date" cols) _).
  assert (∀ c, has_column raw_df c = true ↔ c = "date" ∨ c ∈ cols) as Hhas.
  { intros c. rewrite has_column_true. apply elem_of_set_column. }
  destruct (remove_duplicates_ok raw_df) as (kept & Hkept & Hcols).
  { repeat (first [apply List.Forall_nil | apply List.Forall_cons]);
      apply Hhas; auto. }
  assert (∀ c, has_column kept c = has_column raw_df c) as Hsame
    by (intros c; unfold has_column; by rewrite Hcols).
  exists raw_df, kept. eexists. split; [done|]. split; [done|].
  rewrite Hkept. cbn [mbind result_bind].
  rewrite detect_internal_transfers_rows; cycle 1.
  { by rewrite has_column_categorize. }
  { rewrite has_column_categorize, Hsame, (proj2 (Hhas "description"));
      [done | by right]. }
  cbn [mbind result_bind]. unfold assign_competence.
  assert (has_column (Frame (columns (categorize_transactions kept load_category_rules))
                            (reclassify <$> rows (categorize_transactions kept load_category_rules)))
                     "date" = true) as ->.
  { unfold has_column at 1. cbn [columns].
    change (has_column (categorize_transactions kept load_category_rules) "date" = true).
    rewrite has_column_categorize, Hsame, (proj2 (Hhas "date")); [done | by left]. }
  split; [done|]. cbn [rows]. split.
  { cbn [categorize_transactions rows]. rewrite <- !list_fmap_compose.
    apply list_fmap_ext. intros i r _. cbn. unfold enrich.
    by rewrite base_reclassify. }
  assert (∀ c, c ∈ classification_columns ∨ c = "date" ∨ c ∈ cols →
               has_column (Frame
                 (set_column "competence"
                    (columns (categorize_transactions kept load_category_rules)))
                 (A:=enriched) []) c = true) as Hfinal.
  { intros c Hc. apply has_column_true. cbn [columns].
    apply elem_of_set_column. right.
    apply elem_of_categorize_columns. rewrite Hcols.
    unfold raw_df. cbn [columns]. rewrite elem_of_set_column. tauto. }
  unfold has_column in *. cbn [columns] in *.
  repeat (first [apply List.Forall_nil | apply List.Forall_cons]).
  + apply bool_decide_eq_true_2, elem_of_set_column. by left.
  + apply Hfinal. left. in_list.
  + apply Hfinal. left. in_list.
  + apply Hfinal. left. in_list.
  + apply Hfinal. left. in_list.
  + apply Hfinal. left. in_list.
  + apply Hfinal. auto.
  + apply Hfinal. auto.
  + apply Hfinal. auto.
Qed.


Lemma load_ok_inv (to_datetime : cell → option Date) (name : string)
  (table : raw_frame) (cycle_start_day : Z) (messages : list message)
  (df : frame enriched) :
  load to_datetime name table cycle_start_day = (messages, Ok df) →
  ∃ kept,
    rows df = enrich cycle_start_day <$> rows kept
    ∧ Forall (fun c => has_column df c = true)
             (group_columns ++ ["amount"; "date"; "description"])%list.
Proof.
  intros Hload.
  destruct (supported name) eqn:Hname.
  2: { unfold load in Hload. rewrite parse_file_unsupported in Hload by done.
       discriminate. }
  destruct (decide ("amount" ∈ normalized_columns (raw_columns table)))
    as [Hamount|Hamount].
  2: { rewrite load_without_amount in Hload by done. discriminate. }
  destruct (decide ("description" ∈ normalized_columns (raw_columns table)))
    as [Hdesc|Hdesc].
  - destruct (load_with_columns to_datetime name table cycle_start_day
                Hname Hamount Hdesc)
      as (raw_df & kept & df' & _ & _ & Hload' & Hrows & Hcols).
    rewrite Hload' in Hload. injection Hload as _ <-. by exists kept.
  - exfalso. unfold load in Hload.
    rewrite (parse_file_ok _ _ _ Hname Hamount) in Hload.
    injection Hload as _ Hload.
    rewrite stages_without_description in Hload; [discriminate| |].
    + apply has_column_true. cbn [columns]. apply elem_of_set_column.
      by left.
    + apply not_true_is_false. rewrite has_column_true. cbn [columns].
      rewrite elem_of_set_column. intros [?|?]; done.
Qed.

(** What the rules of the prototype have in common. *)
Lemma shipped_rules_shape :
  Forall (fun rule =>
            category (of_rule rule) ≠ "Revisar"
            ∧ ¬ (is_valonni (of_rule rule) = true
                 ∧ is_investment (of_rule rule) = true)
            ∧ (category (of_rule rule) = "Transferência interna" →
               of_rule rule
               = Classification "Transferência interna" "" false false false false))
         load_category_rules.
Proof.
  repeat (first [apply List.Forall_nil | apply List.Forall_cons]);
    (split; [discriminate|]);
    (split; [intros [? ?]; discriminate|]);
    first [reflexivity | discriminate].
Qed.

Lemma enrich_loaded_row (cycle_start_day : Z) (r : txn) :
  loaded_row (enrich cycle_start_day r).
Proof.
  unfold loaded_row, enrich. cbn [source]. unfold classify.
  destruct (first_match (desc r) load_category_rules) as [rule|] eqn:Hm.
  - apply first_match_Some in Hm as (before & after & Hrules & _ & _).
    pose proof shipped_rules_shape as Hall.
    rewrite Hrules, Forall_app, Forall_cons in Hall.
    destruct Hall as (_ & (Hrev & Hboth & Hti) & _).
    unfold reclassify. cbn [cls].
    rewrite (proj2 (String.eqb_neq _ _) Hrev). cbn [andb cls].
    split; [done|]. split; [done|]. intros Hcat. by rewrite (Hti Hcat).
  - unfold reclassify. cbn [cls category unmatched String.eqb andb].
    change (String.eqb "Revisar" "Revisar") with true. cbn [andb].
    destruct (mentions_holder (Classified r unmatched)) eqn:Hmention.
    + cbn. split; [by intros [? _]|]. split; [discriminate | done].
    + cbn. split; [by intros [? _]|]. split; [|discriminate].
      intros _ Hnames. apply mentions_holder_spec in Hnames. congruence.
Qed.

(** X10. In the table [load] returns, no row has both the [is_valonni] and
    the [is_investment] flag; a row whose category is still "Revisar" does
    not name the holder in its description; and a row of category
    "Transferência interna" has an empty subcategory and its four flags
    false. *)
Theorem load_rows_invariant (to_datetime : cell → option Date)
  (name : string) (table : raw_frame) (cycle_start_day : Z)
  (messages : list message) (df : frame enriched)
  (Hload : load to_datetime name table cycle_start_day = (messages, Ok df)) :
  Forall loaded_row (rows df).
Proof.
  destruct (load_ok_inv _ _ _ _ _ _ Hload) as (kept & Hrows & _).
  rewrite Hrows, Forall_fmap. apply Forall_forall. intros r _.
  apply enrich_loaded_row.
Qed.

Lemma load_sample :
  load sample_to_datetime "extrato.csv" sample_statement 28
  = ([], Ok sample_loaded).
Proof. vm_compute. reflexivity. Qed.

Lemma load_rows_invariant_witness :
  load sample_to_datetime "extrato.csv" sample_statement 28
  = ([], Ok sample_loaded)
  ∧ Forall loaded_row (rows sample_loaded).
Proof.
  split; [exact load_sample|].
  exact (load_rows_invariant sample_to_datetime "extrato.csv" sample_statement
           28 [] sample_loaded load_sample).
Defined.





(** ** Competence Assigner: cycles *)

Lemma Date_compare_le (a b : Date) :
  Date_compare a b ≠ Gt
  ↔ year a < year b
    ∨ (year a = year b
       ∧ (month a < month b ∨ (month a = month b ∧ day a ≤ day b))).
Proof.
  unfold Date_compare, lex.
  destruct (Z.compare_spec (year a) (year b));
    destruct (Z.compare_spec (month a) (month b));
    destruct (Z.compare_spec (day a) (day b));
    split; intros; try done; try lia.
Qed.

(** X12. For a fixed first day of the cycle the competence follows the
    calendar: of two dates the later one never has the earlier competence. *)
Theorem competence_monotone (cycle_start_day : Z) (d1 d2 c1 c2 : Date)
  (Hd1 : valid_date d1) (Hd2 : valid_date d2)
  (Hle : Date_compare d1 d2 ≠ Gt)
  (Hc1 : competence_of cycle_start_day (Some d1) = Some c1)
  (Hc2 : competence_of cycle_start_day (Some d2) = Some c2) :
  Date_compare c1 c2 ≠ Gt.
Proof.
  destruct Hd1 as [Hm1 _], Hd2 as [Hm2 _].
  rewrite competence_of_spec in Hc1, Hc2 by done.
  apply Date_compare_le in Hle. apply Date_compare_le.
  destruct d1 as [y1 m1 a1], d2 as [y2 m2 a2]. cbn in *.
  repeat case_decide; simplify_eq; cbn; lia.
Qed.

Lemma competence_monotone_witness :
  valid_date (mkDate 2025 11 27) ∧ valid_date (mkDate 2025 11 28)
  ∧ Date_compare (mkDate 2025 11 27) (mkDate 2025 11 28) ≠ Gt
  ∧ competence_of 28 (Some (mkDate 2025 11 27)) = Some (mkDate 2025 11 1)
  ∧ competence_of 28 (Some (mkDate 2025 11 28)) = Some (mkDate 2025 12 1)
  ∧ Date_compare (mkDate 2025 11 1) (mkDate 2025 12 1) ≠ Gt.
Proof.
  assert (valid_date (mkDate 2025 11 27)) as H1 by (unfold valid_date; cbn; lia).
  assert (valid_date (mkDate 2025 11 28)) as H2 by (unfold valid_date; cbn; lia).
  assert (Date_compare (mkDate 2025 11 27) (mkDate 2025 11 28) ≠ Gt) as Hle
    by discriminate.
  split; [exact H1|]. split; [exact H2|]. split; [exact Hle|].
  split; [reflexivity|]. split; [reflexivity|].
  exact (competence_monotone 28 _ _ _ _ H1 H2 Hle eq_refl eq_refl).
Defined.

(** X13. A competence covers one cycle and nothing else: a date has the
    competence of a month exactly when it lies in that month before the
    first day of the cycle, or in the month before from that day on. *)
Theorem competence_cycle (cycle_start_day : Z) (d c : Date)
  (Hd : valid_date d)
  (Hc : 1 ≤ month c ≤ 12 ∧ day c = 1) :
  competence_of cycle_start_day (Some d) = Some c
  ↔ (year d = year c ∧ month d = month c ∧ day d < cycle_start_day)
    ∨ (year d = year (previous_month c) ∧ month d = month (previous_month c)
       ∧ cycle_start_day ≤ day d).
Proof.
  destruct Hd as [Hm _], Hc as [Hmc Hdc].
  rewrite competence_of_spec by done. unfold previous_month.
  destruct d as [y m a], c as [yc mc ac]. cbn in *. subst ac.
  repeat case_decide; cbn;
    (split; [intros [= ? ?] | intros Hx; f_equal; f_equal]); lia.
Qed.

Lemma competence_cycle_witness :
  valid_date (mkDate 2025 12 28)
  ∧ (1 ≤ month (mkDate 2026 1 1) ≤ 12 ∧ day (mkDate 2026 1 1) = 1)
  ∧ (competence_of 28 (Some (mkDate 2025 12 28)) = Some (mkDate 2026 1 1)
     ↔ (year (mkDate 2025 12 28) = year (mkDate 2026 1 1)
        ∧ month (mkDate 2025 12 28) = month (mkDate 2026 1 1)
        ∧ day (mkDate 2025 12 28) < 28)
       ∨ (year (mkDate 2025 12 28) = year (previous_month (mkDate 2026 1 1))
          ∧ month (mkDate 2025 12 28) = month (previous_month (mkDate 2026 1 1))
          ∧ 28 ≤ day (mkDate 2025 12 28))).
Proof.
  assert (valid_date (mkDate 2025 12 28)) as Hd by (unfold valid_date; cbn; lia).
  assert (1 ≤ month (mkDate 2026 1 1) ≤ 12 ∧ day (mkDate 2026 1 1) = 1) as Hc
    by (cbn; lia).
  split; [exact Hd|]. split; [exact Hc|].
  exact (competence_cycle 28 _ _ Hd Hc).
Defined.

(** X14. At the ends of the range of the parameter the cycle stops cutting
    months: with 1 as first day every dated transaction is counted in the
    month after its own, and with a first day past 31 every one in its own
    month; with 31 the transactions of a month of thirty days or less all
    stay in their month. *)
Theorem competence_extremes (cycle_start_day : Z) (d : Date)
  (Hd : valid_date d) :
  (cycle_start_day ≤ 1 →
   competence_of cycle_start_day (Some d)
   = Some (if decide (month d = 12) then mkDate (year d + 1) 1 1
           else mkDate (year d) (month d + 1) 1))
  ∧ (31 < cycle_start_day →
     competence_of cycle_start_day (Some d) = Some (mkDate (year d) (month d) 1))
  ∧ (cycle_start_day = 31 → day d ≤ 30 →
     competence_of cycle_start_day (Some d) = Some (mkDate (year d) (month d) 1)).
Proof.
  destruct Hd as [Hm Hday]. rewrite competence_of_spec by done.
  destruct d as [y m a]. cbn in *.
  repeat split; intros; repeat case_decide; try done; lia.
Qed.

Lemma competence_extremes_witness :
  valid_date (mkDate 2025 1 15)
  ∧ (1 ≤ 1 →
     competence_of 1 (Some (mkDate 2025 1 15))
     = Some (if decide (month (mkDate 2025 1 15) = 12)
             then mkDate (year (mkDate 2025 1 15) + 1) 1 1
             else mkDate (year (mkDate 2025 1 15))
                         (month (mkDate 2025 1 15) + 1) 1)).
Proof.
  assert (valid_date (mkDate 2025 1 15)) as Hd by (unfold valid_date; cbn; lia).
  split; [exact Hd|].
  exact (proj1 (competence_extremes 1 _ Hd)).
Defined.

(** ** Transfer Disambiguator: running it twice *)

Lemma reclassify_idemp (r : classified) :
  reclassify (reclassify r) = reclassify r.
Proof.
  unfold reclassify.
  destruct (String.eqb (category (cls r)) "Revisar" && mentions_holder r)
    eqn:Hcond; [done|]. by rewrite Hcond.
Qed.

(** X15. Running the disambiguator on its own result changes nothing: a
    row it has marked as internal transfer is no longer "Revisar", and a row
    it has left is left again. *)
Theorem detect_internal_transfers_twice (df : frame classified) :
  (detect_internal_transfers df ≫= detect_internal_transfers)
  = detect_internal_transfers df.
Proof.
  destruct (has_column df "category") eqn:Hc.
  2: { unfold detect_internal_transfers. by rewrite Hc. }
  destruct (has_column df "description") eqn:Hd.
  2: { unfold detect_internal_transfers. by rewrite Hc, Hd. }
  rewrite (detect_internal_transfers_rows df Hc Hd).
  cbn [mbind result_bind].
  rewrite detect_internal_transfers_rows by done. cbn [columns rows].
  f_equal. f_equal. rewrite <- list_fmap_compose.
  apply list_fmap_ext. intros i r _. apply reclassify_idemp.
Qed.

(** ** The summaries of the dashboard *)

Lemma group_keys_undated (l : list enriched) :
  Forall (fun r => competence r = None) l → group_keys l = [].
Proof.
  intros Hl. apply elem_of_nil_inv. intros k Hk.
  apply elem_of_group_keys in Hk as (r & Hr & Hkey).
  rewrite Forall_forall in Hl. unfold key_of in Hkey.
  by rewrite (Hl r Hr) in Hkey.
Qed.

Lemma group_keys_dated (l : list enriched) (r : enriched) :
  r ∈ l → is_Some (competence r) → group_keys l ≠ [].
Proof.
  intros Hr [c Hc] Hnil.
  assert (∃ k, key_of r = Some k) as [k Hk]
    by (unfold key_of; rewrite Hc; by eexists).
  assert (k ∈ group_keys l) as Hin by (apply elem_of_group_keys; eauto).
  rewrite Hnil in Hin. by apply elem_of_nil in Hin.
Qed.

(** X16. On a table that is not empty and has the columns of the
    aggregator, the dashboard goes through exactly when some row has a
    competence.  When no row has one (no date could be read) the summary has
    no row, [summary_by_type] answers with three tables without columns, and
    the grouping for the chart fails with the [KeyError] of the category
    column. *)
Theorem dashboard_needs_a_date (df : frame enriched)
  (Hcolumns : Forall (fun name => has_column df name = true)
                (group_columns ++ ["amount"])%list)
  (Hrows : rows df ≠ []) :
  (Forall (fun r => competence r = None) (rows df) →
   compute_summary df = Ok (Frame (group_columns ++ ["total_amount"])%list [])
   ∧ dashboard df = KeyError "category")
  ∧ (Exists (fun r => is_Some (competence r)) (rows df) →
     ∃ outcome, dashboard df = Ok (Some outcome)).
Proof.
  assert (df_empty df = false) as Hempty.
  { unfold df_empty. destruct (columns df) as [|c cols] eqn:Hcols.
    - apply Forall_cons in Hcolumns as [Hc _]. apply has_column_true in Hc.
      rewrite Hcols in Hc. by apply elem_of_nil in Hc.
    - by destruct (rows df). }
  pose proof (compute_summary_rows df Hcolumns) as Hsummary.
  rewrite Hempty in Hsummary. unfold dashboard. rewrite Hempty, Hsummary.
  split.
  - intros Hnone. rewrite (group_keys_undated _ Hnone). by split.
  - intros (r & Hr & Hsome)%Exists_exists.
    pose proof (group_keys_dated _ r Hr Hsome) as Hkeys.
    cbn [mbind result_bind]. unfold summary_by_type.
    assert (df_empty (Frame (group_columns ++ ["total_amount"])%list
                        (summarize (rows df) <$> group_keys (rows df)))
            = false) as ->.
    { unfold df_empty. cbn [columns rows group_columns app].
      by destruct (group_keys (rows df)). }
    by eexists.
Qed.

Lemma dashboard_needs_a_date_witness :
  Forall (fun name => has_column sample_undated name = true)
         (group_columns ++ ["amount"])%list
  ∧ rows sample_undated ≠ []
  ∧ (Forall (fun r => competence r = None) (rows sample_undated) →
     compute_summary sample_undated
     = Ok (Frame (group_columns ++ ["total_amount"])%list [])
     ∧ dashboard sample_undated = KeyError "category").
Proof.
  assert (Forall (fun name => has_column sample_undated name = true)
                 (group_columns ++ ["amount"])%list) as Hcolumns
    by (repeat (first [apply List.Forall_nil | apply List.Forall_cons]);
        reflexivity).
  assert (rows sample_undated ≠ []) as Hrows by discriminate.
  split; [exact Hcolumns|]. split; [exact Hrows|].
  exact (proj1 (dashboard_needs_a_date sample_undated Hcolumns Hrows)).
Defined.

(** ** Record Normalizer: a statement without date column *)







(** ** Rule-Based Classifier: rules that match nothing, everything, never *)

(** X18. A rule without keyword matches no row, and a rule with an empty
    keyword matches every row: from its place in the list on, the rules
    after it are never reached. *)
Theorem keyword_extremes (text : string) (rule : CategoryRule)
  (before after : list CategoryRule) :
  (CategoryRule.keywords rule = [] → rule_matches text rule = false)
  ∧ ("" ∈ CategoryRule.keywords rule → rule_matches text rule = true)
  ∧ ("" ∈ CategoryRule.keywords rule →
     classify (before ++ rule :: after) text
     = classify (before ++ [rule]) text).
Proof.
  assert ("" ∈ CategoryRule.keywords rule → rule_matches text rule = true)
    as Hempty.
  { intros Hin. apply rule_matches_spec. exists "", "", text. by split. }
  split; [by unfold rule_matches; intros ->|]. split; [done|].
  intros Hin. specialize (Hempty Hin). unfold classify.
  assert (∀ rest, first_match text (before ++ rule :: rest)
                  = first_match text (before ++ [rule])) as Hrest.
  { intros rest. induction before as [|r0 before IH]; cbn [app first_match].
    - by rewrite Hempty.
    - by rewrite IH. }
  by rewrite Hrest.
Qed.

Lemma rule_matches_cons (text keyword : string) (rule : CategoryRule) :
  keyword ∈ CategoryRule.keywords rule →
  rule_matches text rule = false →
  PyStr.contains (PyStr.lower keyword) text = false.
Proof.
  unfold rule_matches. intros Hin Hno.
  apply not_true_is_false. intros Hc.
  assert (existsb (fun k => PyStr.contains (PyStr.lower k) text)
                  (CategoryRule.keywords rule) = true) as Hex; [|congruence].
  apply existsb_exists. exists keyword. by rewrite <- list_elem_of_In.
Qed.

(** With the rules of the prototype the rule "Investimentos" is never the
    first to match: its only keyword is a keyword of the rule "Carro". *)
Lemma classify_never_investment (text : string) :
  is_investment (classify load_category_rules text) = false
  ∧ category (classify load_category_rules text) ≠ "Investimentos".
Proof.
  unfold classify, load_category_rules. cbn [first_match].
  repeat match goal with
         | |- context [if rule_matches text ?r then _ else _] =>
             let H := fresh "Hrule" in
             destruct (rule_matches text r) eqn:H;
             [by split; [reflexivity | discriminate]|]
         end.
  match goal with
  | H : rule_matches text (CategoryRule.mk "Carro" _ _ _ _ _ _) = false |- _ =>
      apply (rule_matches_cons text "Yasmin") in H; [|cbn; in_list];
      unfold rule_matches; cbn [CategoryRule.keywords existsb];
      rewrite H
  end.
  by split; [reflexivity | discriminate].
Qed.

Lemma enrich_never_investment (cycle_start_day : Z) (r : txn) :
  is_investment (cls (source (enrich cycle_start_day r))) = false
  ∧ category (cls (source (enrich cycle_start_day r))) ≠ "Investimentos".
Proof.
  unfold enrich. cbn [source].
  destruct (classify_never_investment (desc r)) as [Hflag Hcat].
  unfold reclassify. destruct (_ && _); cbn [cls]; [|done].
  split; [done | discriminate].
Qed.

(** X19. With the rules of the prototype no transaction is ever classified
    as investment: the only keyword of the rule "Investimentos" is also a
    keyword of the rule "Carro", which stands before it.  So in the table
    [load] returns no row has the category "Investimentos" or the
    [is_investment] flag, and the investment table of the dashboard has no
    row. *)
Theorem investments_never_found (to_datetime : cell → option Date)
  (name : string) (table : raw_frame) (cycle_start_day : Z)
  (messages : list message) (df : frame enriched)
  (Hload : load to_datetime name table cycle_start_day = (messages, Ok df)) :
  Forall (fun r => is_investment (cls (source r)) = false
                   ∧ category (cls (source r)) ≠ "Investimentos") (rows df)
  ∧ ∃ summary pessoal valonni invest,
      compute_summary df = Ok summary
      ∧ summary_by_type summary = Ok (pessoal, valonni, invest)
      ∧ rows invest = [].
Proof.
  destruct (load_ok_inv _ _ _ _ _ _ Hload) as (kept & Hrows & Hcols).
  assert (Forall (fun r => is_investment (cls (source r)) = false
                   ∧ category (cls (source r)) ≠ "Investimentos") (rows df))
    as Hinv.
  { rewrite Hrows, Forall_fmap. apply Forall_forall. intros r _.
    apply enrich_never_investment. }
  split; [done|].
  assert (Forall (fun c => has_column df c = true)
                 (group_columns ++ ["amount"])%list) as Hcols'.
  { rewrite Forall_forall in Hcols. apply Forall_forall. intros c Hc.
    apply Hcols. unfold group_columns in *. cbn [app] in *.
    rewrite !elem_of_cons in *. tauto. }
  rewrite (compute_summary_rows df Hcols').
  destruct (df_empty df).
  { by exists empty_frame, empty_frame, empty_frame, empty_frame. }
  set (summary := Frame (group_columns ++ ["total_amount"])%list
                    (summarize (rows df) <$> group_keys (rows df))).
  exists summary. unfold summary_by_type.
  destruct (df_empty summary).
  { by exists empty_frame, empty_frame, empty_frame. }
  cbn [missing_column]. do 3 eexists. split; [done|]. split; [done|].
  cbn [rows summary]. apply elem_of_nil_inv.
  intros s [Hs (k & -> & Hk)%list_elem_of_fmap]%list_elem_of_filter.
  apply elem_of_group_keys in Hk as (r & Hr & Hkey).
  rewrite Forall_forall in Hinv. destruct (Hinv r Hr) as [Hflag _].
  unfold key_of in Hkey. destruct (competence r); [|discriminate].
  cbn in Hkey. injection Hkey as <-. cbn in Hs. congruence.
Qed.

Lemma investments_never_found_witness :
  load sample_to_datetime "extrato.csv" sample_statement 28
  = ([], Ok sample_loaded)
  ∧ Forall (fun r => is_investment (cls (source r)) = false
                     ∧ category (cls (source r)) ≠ "Investimentos")
           (rows sample_loaded).
Proof.
  split; [exact load_sample|].
  exact (proj1 (investments_never_found sample_to_datetime "extrato.csv"
                  sample_statement 28 [] sample_loaded load_sample)).
Defined.

(** ** Record Normalizer: amounts written with thousands commas *)

Lemma all_digits_app (a b : string) :
  all_digits a = true → all_digits b = true → all_digits (a +:+ b) = true.
Proof.
  intros Ha Hb. induction a as [|c a IH]; [done|].
  cbn [all_digits] in Ha. apply andb_true_iff in Ha as [Hc Ha].
  rewrite string_app_cons. cbn [all_digits]. by rewrite Hc, IH.
Qed.

Lemma decimal_from_second_point (a g rest : string) :
  all_digits a = true → all_digits g = true →
  decimal_from 0 None false (a +:+ "." +:+ g +:+ "." +:+ rest) = None.
Proof.
  intros Ha Hg.
  rewrite (decimal_from_digits a _ _ _ _ Ha).
  change ("." +:+ g +:+ "." +:+ rest) with (String "." (g +:+ String "." rest)).
  cbn [decimal_from fmap option_fmap option_map].
  change (digit ".") with (@None Z). change (Ascii.eqb "." ".") with true.
  cbn match. rewrite (decimal_from_digits g _ _ _ _ Hg).
  cbn [decimal_from fmap option_fmap option_map].
  change (digit ".") with (@None Z). by change (Ascii.eqb "." ".") with true.
Qed.

(** X20. An amount written the other way round, with commas between the
    thousands and a decimal point, is not refused but misread: "a,g.b" loses
    its point and gets one where the comma was, so it is read as the digits
    [a g b] with the digits of [g] and [b] after the point; with two commas or
    more ("a,g,h") the string has two points and no number is read (NaN). *)
Theorem amount_thousands_comma (sign a g b : string)
  (Hsign : is_sign sign)
  (Ha : all_digits a = true) (Hg : all_digits g = true)
  (Hb : all_digits b = true)
  (Hany : a +:+ g +:+ b ≠ "") :
  to_numeric (clean_amount (sign +:+ a +:+ "," +:+ g +:+ "." +:+ b))
  = Some (decimal (sign_value sign) (digits_from 0 (a +:+ g +:+ b))
            (String.length g + String.length b))
  ∧ (∀ h, to_numeric (clean_amount (sign +:+ a +:+ "," +:+ g +:+ "," +:+ h))
          = None)
  ∧ this <$> to_numeric (clean_amount "1,234.56") = Some (3858 # 3125)%Q.
Proof.
  assert (∀ rest, clean_amount (sign +:+ a +:+ "," +:+ g +:+ rest)
                  = sign +:+ a +:+ "." +:+ g +:+ clean_amount rest) as Hclean.
  { intros rest. rewrite (clean_amount_sign _ _ Hsign). f_equal.
    unfold clean_amount. rewrite !replace_app.
    rewrite (replace_digits "." "" a), (replace_digits "." "" g) by done.
    rewrite (replace_digits "," "." a), (replace_digits "," "." g) by done.
    reflexivity. }
  split; [|split; [|vm_compute; reflexivity]].
  - rewrite Hclean.
    assert (clean_amount ("." +:+ b) = b) as ->.
    { unfold clean_amount. rewrite replace_app.
      change (PyStr.replace "." "" ".") with "". rewrite string_app_nil.
      rewrite (replace_digits "." "" b) by done.
      by rewrite (replace_digits "," "." b). }
    rewrite to_numeric_point;
      [by rewrite string_length_app | done | done | by apply all_digits_app | done].
  - intros h. rewrite Hclean.
    assert (∃ rest, clean_amount ("," +:+ h) = "." +:+ rest) as [rest ->].
    { unfold clean_amount. rewrite replace_app.
      change (PyStr.replace "." "" ",") with ",". rewrite replace_app.
      change (PyStr.replace "," "." ",") with ".". by eexists. }
    unfold to_numeric.
    change ("." +:+ g +:+ "." +:+ rest) with (String "." (g +:+ "." +:+ rest)).
    rewrite (split_sign_body sign _ Hsign (body_start a _ Ha)).
    change (String "." (g +:+ "." +:+ rest)) with ("." +:+ g +:+ "." +:+ rest).
    by rewrite decimal_from_second_point.
Qed.

Lemma amount_thousands_comma_witness :
  is_sign "" ∧ all_digits "1" = true ∧ all_digits "234" = true
  ∧ all_digits "56" = true ∧ "1" +:+ "234" +:+ "56" ≠ ""
  ∧ to_numeric (clean_amount ("" +:+ "1" +:+ "," +:+ "234" +:+ "." +:+ "56"))
    = Some (decimal (sign_value "") (digits_from 0 ("1" +:+ "234" +:+ "56"))
              (String.length "234" + String.length "56")).
Proof.
  assert (is_sign "") as Hsign by (left; reflexivity).
  assert ("1" +:+ "234" +:+ "56" ≠ "") as Hany by discriminate.
  split; [exact Hsign|]. split; [reflexivity|]. split; [reflexivity|].
  split; [reflexivity|]. split; [exact Hany|].
  exact (proj1 (amount_thousands_comma "" "1" "234" "56" Hsign
                  eq_refl eq_refl eq_refl Hany)).
Defined.
